(** * jqxx: the fake-news detection pipeline of [jqxx.py]

    A shallow embedding of the decision pipeline of [src/jqxx/jqxx.py]
    (text normalisation, heuristic features, the absurd-content gate, the
    feature-vector assembly, the confidence computation and the button
    handler that sequences them), followed by the properties of the
    specification that concern them.

    Conventions of the model:
    - a Python [str] is a list of Unicode code points ([N]); literals of the
      source are written as UTF-8 string literals and decoded by [py];
    - a Python / numpy float is an exact rational ([Q]); [1.7] and [0.97] are
      the decimal fractions the source writes, no operation rounds, and an
      equation between computed values is one up to rounding in the
      program; the one value that is not a number, the result of a division
      by zero, is [NotFinite];
    - an exception is a value of [exn], carried by the [result] type and by
      the monad [M], which also logs the pipeline stages that were entered;
    - the collaborators that live outside the file ([jieba.cut], the fitted
      vectorizer and classifier, numpy's cast to [float32]) are parameters. *)

From Stdlib Require Import List ZArith NArith QArith Qminmax String Ascii Bool Lia Lqa.
Import ListNotations.

Local Open Scope bool_scope.

(* ================================================================== *)
(** ** Python strings *)

Module PyStr.

Definition codepoint := N.
Definition pystr := list codepoint.

(** Decoding of a UTF-8 literal into code points (well-formed input only;
    a truncated sequence ends the decoding). *)
Definition cont (b : N) : N := N.land b 0x3F.

Fixpoint utf8_decode (bs : list N) : pystr :=
  match bs with
  | [] => []
  | b0 :: r0 =>
      if (b0 <? 0x80)%N then b0 :: utf8_decode r0
      else if (b0 <? 0xE0)%N then
        match r0 with
        | b1 :: r1 =>
            N.lor (N.shiftl (N.land b0 0x1F) 6) (cont b1) :: utf8_decode r1
        | _ => []
        end
      else if (b0 <? 0xF0)%N then
        match r0 with
        | b1 :: b2 :: r2 =>
            N.lor (N.shiftl (N.land b0 0x0F) 12)
                  (N.lor (N.shiftl (cont b1) 6) (cont b2)) :: utf8_decode r2
        | _ => []
        end
      else
        match r0 with
        | b1 :: b2 :: b3 :: r3 =>
            N.lor (N.shiftl (N.land b0 0x07) 18)
                  (N.lor (N.shiftl (cont b1) 12)
                         (N.lor (N.shiftl (cont b2) 6) (cont b3)))
              :: utf8_decode r3
        | _ => []
        end
  end.

Definition py (s : string) : pystr :=
  utf8_decode (map N_of_ascii (list_ascii_of_string s)).

(** [len(text)] *)
Definition len (text : pystr) : Z := Z.of_nat (List.length text).

(** [text.startswith(sub)] *)
Fixpoint starts_with (sub text : pystr) : bool :=
  match sub, text with
  | [], _ => true
  | _ :: _, [] => false
  | a :: sub', b :: text' => (a =? b)%N && starts_with sub' text'
  end.

(** [sub in text] *)
Fixpoint contains (sub text : pystr) : bool :=
  starts_with sub text
  || match text with
     | [] => false
     | _ :: text' => contains sub text'
     end.

(** [text.count(sub)] for a non-empty [sub]: occurrences are counted from
    left to right without overlap; [skip] is the number of characters still
    covered by the last occurrence. *)
Fixpoint count_from (sub text : pystr) (skip : nat) : nat :=
  match text with
  | [] => 0
  | _ :: text' =>
      match skip with
      | S k => count_from sub text' k
      | O =>
          if starts_with sub text
          then S (count_from sub text' (List.length sub - 1))
          else count_from sub text' 0
      end
  end.

Definition count (sub text : pystr) : Z := Z.of_nat (count_from sub text 0).

(** [str.isspace] of one character, which is also what [\s] matches in a
    [str] pattern and what [str.strip()] removes. *)
Definition is_space (c : codepoint) : bool :=
  ((0x09 <=? c) && (c <=? 0x0D)
   || (0x1C <=? c) && (c <=? 0x20)
   || (c =? 0x85) || (c =? 0xA0) || (c =? 0x1680)
   || (0x2000 <=? c) && (c <=? 0x200A)
   || (c =? 0x2028) || (c =? 0x2029) || (c =? 0x202F)
   || (c =? 0x205F) || (c =? 0x3000))%N.

Definition SPACE : codepoint := 0x20%N.

Fixpoint lstrip (text : pystr) : pystr :=
  match text with
  | [] => []
  | c :: text' => if is_space c then lstrip text' else text
  end.

Fixpoint rstrip (text : pystr) : pystr :=
  match text with
  | [] => []
  | c :: text' =>
      match rstrip text' with
      | [] => if is_space c then [] else [c]
      | r => c :: r
      end
  end.

(** [text.strip()] *)
Definition strip (text : pystr) : pystr := rstrip (lstrip text).

(** [sep.join(parts)] *)
Fixpoint join (sep : pystr) (parts : list pystr) : pystr :=
  match parts with
  | [] => []
  | [p] => p
  | p :: rest => p ++ sep ++ join sep rest
  end.

End PyStr.
Export PyStr.

(* ================================================================== *)
(** ** Python values, exceptions and the pipeline monad *)

(** Python's [min(a, b)]: the first argument unless the second is smaller. *)
Definition py_min (a b : Q) : Q := if Qle_bool a b then a else b.

Inductive pyvalue :=
| PyInt (n : Z)
| PyFloat (x : Q).

(** [float(v)] *)
Definition float (v : pyvalue) : Q :=
  match v with
  | PyInt n => inject_Z n
  | PyFloat x => x
  end.

Inductive exn :=
| VectorizerError     (* raised inside [models["tfidf"].transform] *)
| ClassifierError     (* raised inside [predict] or [predict_proba] *)
| KeyError
| ValueError          (* a tuple unpacking of the wrong length *)
| StreamlitAPIException. (* [st.progress] given a value outside [0.0, 1.0] *)

Inductive result (A : Type) :=
| Ok (a : A)
| Raise (e : exn).
Arguments Ok {A} a.
Arguments Raise {A} e.

(** A numpy [float64] that comes out of a division: a number, or one of
    [nan], [inf] and [-inf]. *)
Inductive npfloat :=
| Finite (x : Q)
| NotFinite.

(** numpy's division of floats: a zero divisor gives [nan] or an infinity
    (with a warning), it does not raise. *)
Definition np_div (x y : Q) : npfloat :=
  if Qeq_bool y 0 then NotFinite else Finite (x / y).

(** [st.progress(value, ...)] with a float: Streamlit raises unless
    [0.0 <= value <= 1.0], which [nan] and the infinities fail; the answer
    is the value that the bar shows. *)
Definition st_progress (value : npfloat) : result Q :=
  match value with
  | Finite x =>
      if Qle_bool 0 x && Qle_bool x 1 then Ok x
      else Raise StreamlitAPIException
  | NotFinite => Raise StreamlitAPIException
  end.

(** The stages of the pipeline that a run can enter after the gate. *)
Inductive stage :=
| Normalizer          (* [preprocess_text] *)
| Vectorizer          (* [models["tfidf"].transform] *)
| Classifier          (* [predict] / [predict_proba] *)
| Calibrator.         (* [calculate_confidence] *)

Module Pipeline.

(** A computation that may raise and that logs the stages it enters, the
    most recent last. *)
Definition M (A : Type) : Type := list stage -> result A * list stage.

Definition ret {A} (a : A) : M A := fun log => (Ok a, log).

Definition bind {A B} (m : M A) (k : A -> M B) : M B :=
  fun log =>
    match m log with
    | (Ok a, log') => k a log'
    | (Raise e, log') => (Raise e, log')
    end.

Definition enter (s : stage) : M unit := fun log => (Ok tt, log ++ [s]).

Definition lift {A} (r : result A) : M A := fun log => (r, log).

(** [try: body except Exception: handler] *)
Definition try_except {A} (body : M A) (handler : exn -> M A) : M A :=
  fun log =>
    match body log with
    | (Ok a, log') => (Ok a, log')
    | (Raise e, log') => handler e log'
    end.

Definition run {A} (m : M A) : result A * list stage := m [].

End Pipeline.
Import Pipeline.

Declare Scope pipeline_scope.
Delimit Scope pipeline_scope with pipeline.
Notation "x <- m ;; k" := (bind m (fun x => k))
  (at level 61, m at next level, right associativity) : pipeline_scope.
Notation "m ;;; k" := (bind m (fun _ => k))
  (at level 61, right associativity) : pipeline_scope.

Local Open Scope pipeline_scope.

(* ================================================================== *)
(** ** The program *)

(** The loaded model components: [models["tfidf"]], [models["classifier"]]
    and [models["expected_dim"]].  [transform] is
    [tfidf.transform([text]).toarray()[0]], the row of the one document;
    [predict] and [predict_proba] are the first row of the classifier's
    answers.  Each call may raise. *)
Record classifier := {
  predict : list Q -> result Z;
  predict_proba : list Q -> result (list Q)
}.

Record models := {
  tfidf : pystr -> result (list Q);
  model : classifier;
  expected_dim : nat
}.

(** A Python [dict] with string keys, in insertion order. *)
Definition pydict := list (string * pyvalue).

(** [d[key]] *)
Fixpoint getitem (d : pydict) (key : string) : result pyvalue :=
  match d with
  | [] => Raise KeyError
  | (k, v) :: d' => if String.eqb k key then Ok v else getitem d' key
  end.

(** [sorted(d)]: the keys in ascending order (a stable insertion sort). *)
Fixpoint insert_key (k : string) (l : list string) : list string :=
  match l with
  | [] => [k]
  | h :: t => if String.ltb k h then k :: l else h :: insert_key k t
  end.

Definition sorted (d : pydict) : list string :=
  fold_left (fun acc k => insert_key k acc) (map fst d) [].

(** [[f(x) for x in xs]] where [f] may raise. *)
Fixpoint comprehension {A B} (f : A -> result B) (xs : list A) : result (list B) :=
  match xs with
  | [] => Ok []
  | x :: xs' =>
      match f x with
      | Raise e => Raise e
      | Ok y =>
          match comprehension f xs' with
          | Raise e => Raise e
          | Ok ys => Ok (y :: ys)
          end
      end
  end.

(** [1.0 if b else 0.0] *)
Definition flag (b : bool) : pyvalue := PyFloat (if b then 1.0 else 0.0).

(** The outcome of one press of the detection button. *)
Inductive verdict :=
| Fake (confidence : Q) (reason : option pystr)
| Real (confidence : Q).

Inductive outcome :=
| EmptyInput                    (* the warning shown for a blank text *)
| Verdict (v : verdict)
| AnalysisFailed (e : exn).     (* the handler of the outer [try] *)

Section Program.

(** [jieba.cut]: the tokens of a text, in order. *)
Variable jieba_cut : pystr -> list pystr.

(** numpy's rounding of one entry to [float32]. *)
Variable float32 : Q -> Q.

(** *** [preprocess_text] *)

(** A character of the class [[一-龥a-zA-Z0-9]]. *)
Definition is_word_char (c : codepoint) : bool :=
  ((0x4e00 <=? c) && (c <=? 0x9fa5)
   || (0x61 <=? c) && (c <=? 0x7A)
   || (0x41 <=? c) && (c <=? 0x5A)
   || (0x30 <=? c) && (c <=? 0x39))%N.

(** [re.sub(r'[^一-龥a-zA-Z0-9]', ' ', text)] *)
Definition sub_non_word (text : pystr) : pystr :=
  map (fun c => if is_word_char c then c else SPACE) text.

(** [re.sub(r'\s+', ' ', text)]: every maximal run of whitespace becomes
    one space (a whitespace character followed by another one is dropped,
    the last of the run is replaced). *)
Fixpoint sub_spaces (text : pystr) : pystr :=
  match text with
  | [] => []
  | c :: text' =>
      if is_space c then
        match text' with
        | c' :: _ => if is_space c' then sub_spaces text'
                     else SPACE :: sub_spaces text'
        | [] => [SPACE]
        end
      else c :: sub_spaces text'
  end.

(** [str.lower] of one character, on the alphabet that reaches it here:
    after the first substitution the text holds CJK ideographs, ASCII
    letters and digits, and spaces, of which only [A-Z] change. *)
Definition lower_char (c : codepoint) : codepoint :=
  if ((0x41 <=? c) && (c <=? 0x5A))%N then (c + 0x20)%N else c.

Definition lower (text : pystr) : pystr := map lower_char text.

(** The text handed to the tokenizer:
    [re.sub(r'\s+', ' ', re.sub(..., ' ', text)).lower().strip()]. *)
Definition clean_text (text : pystr) : pystr :=
  strip (lower (sub_spaces (sub_non_word text))).

Definition preprocess_text (text : pystr) : pystr :=
  match text with
  | [] => py ""
  | _ => join (py " ") (jieba_cut (clean_text text))
  end.

(** *** [extract_text_features] *)

Definition reliable_markers : list pystr :=
  Eval vm_compute in map py ["新华社"; "人民日报"; "官方"]%string.

Definition is_absurd_phrases : list pystr :=
  Eval vm_compute in map py ["月球爆炸"; "太阳消失"; "地球停转"; "长生不老"]%string.

Definition urgent_markers : list pystr :=
  Eval vm_compute in map py ["必看"; "紧急"; "速看"]%string.

Definition exaggeration_markers : list pystr :=
  Eval vm_compute in map py ["震惊"; "最牛"; "100%"]%string.

(** [any(phrase in text for phrase in phrases)], which is also
    [p1 in text or p2 in text or ...]. *)
Definition any_in (phrases : list pystr) (text : pystr) : bool :=
  existsb (fun phrase => contains phrase text) phrases.

Definition FULL_STOP : pystr := Eval vm_compute in py "。".

Definition extract_text_features (text : pystr) : pydict :=
  [ ("length", PyInt (len text));
    ("sentences", PyInt (count FULL_STOP text + 1));
    ("reliable", flag (any_in reliable_markers text));
    ("is_absurd", flag (any_in is_absurd_phrases text));
    ("urgent", flag (any_in urgent_markers text));
    ("exaggeration", flag (any_in exaggeration_markers text)) ]%string.

(** *** [generate_features] *)

(** [np.zeros((1, n), dtype=np.float32)] *)
Definition zeros (n : nat) : list Q := repeat 0 n.

Definition generate_features (text : pystr) (m : models) : M (list Q) :=
  enter Normalizer ;;;
  let processed_text := preprocess_text text in
  try_except
    (enter Vectorizer ;;;
     tfidf_vector <- lift (tfidf m processed_text) ;;
     let adv_features := extract_text_features text in
     adv_vector <- lift (comprehension
                           (fun key => match getitem adv_features key with
                                       | Ok v => Ok (float v)
                                       | Raise e => Raise e
                                       end)
                           (sorted adv_features)) ;;
     let features := tfidf_vector ++ adv_vector in
     ret (map float32 (firstn (expected_dim m) features)))
    (fun _ => ret (zeros (expected_dim m))).

(** *** [absurd_content_detector] *)

Definition absurd_phrases : list pystr :=
  Eval vm_compute in
    map py ["月球爆炸"; "太阳消失"; "地球停转"; "长生不老"; "穿越古代"]%string.

Definition reason_prefix : pystr := Eval vm_compute in py "检测到荒谬内容: ".

(** The [for] loop over the phrases, with its early [return]. *)
Fixpoint detector_loop (phrases : list pystr) (text : pystr) : bool * pystr :=
  match phrases with
  | [] => (false, py "")
  | phrase :: rest =>
      if contains phrase text then (true, reason_prefix ++ phrase)
      else detector_loop rest text
  end.

Definition absurd_content_detector (text : pystr) : bool * pystr :=
  detector_loop absurd_phrases text.

(** *** [calculate_confidence] *)

Definition authority_markers : list pystr :=
  Eval vm_compute in map py ["新华社"; "人民日报"]%string.

Definition calculate_confidence (probabilities : list Q) (text : pystr)
  : result (Q * Q) :=
  match probabilities with
  | [real_prob; fake_prob] =>
      let real_prob :=
        if any_in authority_markers text
        then py_min (real_prob * 1.7) 0.97
        else real_prob in
      Ok (real_prob, fake_prob)
  | _ => Raise ValueError
  end.

(** *** [main_application]: the handler of the detection button *)

(** Lines 170-171: division of both probabilities by their sum.  With the
    classifier's numpy values a sum of zero gives [nan] or an infinity,
    which the progress bar below refuses (with plain Python floats the
    division itself would raise, into the same handler). *)
Definition normalise (p : Q * Q) : npfloat * npfloat :=
  let (real_prob, fake_prob) := p in
  let total := real_prob + fake_prob in
  (np_div real_prob total, np_div fake_prob total).

Definition analyse (news_text : pystr) (m : models) : M verdict :=
  let (is_absurd, reason) := absurd_content_detector news_text in
  if is_absurd then ret (Fake 1.0 (Some reason))
  else
    features <- generate_features news_text m ;;
    enter Classifier ;;;
    prediction <- lift (predict (model m) features) ;;
    probabilities <- lift (predict_proba (model m) features) ;;
    enter Calibrator ;;;
    p <- lift (calculate_confidence probabilities news_text) ;;
    let (real_prob, fake_prob) := normalise p in
    if (prediction =? 1)%Z then
      confidence <- lift (st_progress fake_prob) ;;
      ret (Fake confidence None)
    else
      confidence <- lift (st_progress real_prob) ;;
      ret (Real confidence).

Definition main_application (news_text : pystr) (m : models)
  : outcome * list stage :=
  match strip news_text with
  | [] => (EmptyInput, [])
  | _ =>
      match run (analyse news_text m) with
      | (Ok v, log) => (Verdict v, log)
      | (Raise e, log) => (AnalysisFailed e, log)
      end
  end.

End Program.

(* ================================================================== *)
(** ** Shapes of texts and tokens *)

(** A character that [clean_text] leaves in place: a CJK ideograph, a lower
    case ASCII letter or a digit. *)
Definition is_clean_char (c : codepoint) : bool :=
  ((0x4e00 <=? c) && (c <=? 0x9fa5)
   || (0x61 <=? c) && (c <=? 0x7A)
   || (0x30 <=? c) && (c <=? 0x39))%N.

(** A token made of such characters, at least one. *)
Definition clean_token (t : pystr) : bool :=
  match t with
  | [] => false
  | _ => forallb is_clean_char t
  end.

(** No two whitespace characters in a row. *)
Fixpoint no_double_space (s : pystr) : bool :=
  match s with
  | [] => true
  | c :: s' =>
      match s' with
      | [] => true
      | c' :: _ => negb (is_space c && is_space c')
      end && no_double_space s'
  end.

(** What the first substitution leaves, and what lowercasing then leaves. *)
Definition word_or_space (c : codepoint) : Prop :=
  is_word_char c = true \/ c = SPACE.

Definition clean_or_space (c : codepoint) : Prop :=
  is_clean_char c = true \/ c = SPACE.

Definition visible (c : codepoint) : Prop := is_space c = false.

(** The text does not start with whitespace. *)
Definition head_visible (s : pystr) : Prop :=
  match s with
  | [] => True
  | c :: _ => visible c
  end.

(** The shape of a cleaned text: clean characters separated by single
    spaces, with no space at either end. *)
Definition tidy (s : pystr) : Prop :=
  Forall clean_or_space s
  /\ no_double_space s = true
  /\ head_visible s
  /\ rstrip s = s.

(** The words of a text: its maximal runs of characters that are not
    whitespace, in order (what [text.split()] answers). *)
Fixpoint words (text : pystr) : list pystr :=
  match text with
  | [] => []
  | c :: text' =>
      if is_space c then words text'
      else
        match text' with
        | [] => [[c]]
        | d :: _ =>
            if is_space d then [c] :: words text'
            else
              match words text' with
              | w :: ws => (c :: w) :: ws
              | [] => [[c]]
              end
        end
  end.

(** The text is empty or starts with whitespace. *)
Definition head_space (text : pystr) : bool :=
  match text with
  | [] => true
  | d :: _ => is_space d
  end.

(** The tokens cut the text at whitespace only: read word by word, they
    are the words of the text (a token may hold whitespace, several words
    or none; no word of the text is split between two tokens). *)
Definition cuts_at_spaces (tokens : list pystr) (text : pystr) : Prop :=
  List.concat (map words tokens) = words text.

(** The entries of the heuristic features that are flags. *)
Definition flag_fields : list string :=
  ["reliable"; "is_absurd"; "urgent"; "exaggeration"]%string.

(** A verdict was reached. *)
Definition is_verdict (o : outcome) : bool :=
  match o with
  | Verdict _ => true
  | _ => false
  end.

(* ================================================================== *)
(** ** The rest of the application: loading, session and feedback *)

(** [load_models]: both pickles are loaded and the dimension is set to 204;
    when a load raises, the script is stopped ([st.stop()]) and there are no
    models.  The arguments are the outcomes of the two [joblib.load] calls. *)
Definition load_models
  (load_tfidf : result (pystr -> result (list Q)))
  (load_classifier : result classifier) : option models :=
  match load_tfidf with
  | Raise _ => None
  | Ok vectorizer =>
      match load_classifier with
      | Raise _ => None
      | Ok clf =>
          Some {| tfidf := vectorizer; model := clf; expected_dim := 204 |}
      end
  end.

(** [text.split(sep)] for a one-character separator. *)
Fixpoint split_char (sep : codepoint) (text : pystr) : list pystr :=
  match text with
  | [] => [[]]
  | c :: text' =>
      if (c =? sep)%N then [] :: split_char sep text'
      else
        match split_char sep text' with
        | piece :: pieces => (c :: piece) :: pieces
        | [] => [[c]]
        end
  end.

Definition COLON : codepoint := 0x3A%N.

(** [reason.split(':')[-1]], the phrase set in bold in the report of the
    gate. *)
Definition highlighted_phrase (reason : pystr) : pystr :=
  last (split_char COLON reason) [].

(** [a == b] on strings. *)
Fixpoint str_eqb (a b : pystr) : bool :=
  match a, b with
  | [], [] => true
  | x :: a', y :: b' => (x =? y)%N && str_eqb a' b'
  | _, _ => false
  end.

(** [st.session_state.last_result] *)
Record stored_result := {
  result_text : pystr;
  result_prediction : Z;
  result_confidence : Q
}.

(** The entries of [st.session_state] that the application sets itself.
    (The comment of the feedback form is the value of a widget: it is there
    in the runs that draw the form and is an input of the submit button
    below, like the choice of the radio button.) *)
Record session_state := {
  show_feedback : bool;
  last_result : option stored_result
}.

(** The state of a new session: line 113 sets [show_feedback] to [False]. *)
Definition new_session : session_state :=
  {| show_feedback := false; last_result := None |}.

(** The button that opens the feedback form (line 133). *)
Definition report_button (s : session_state) : session_state :=
  {| show_feedback := true; last_result := last_result s |}.

Section Session.

Variable jieba_cut : pystr -> list pystr.
Variable float32 : Q -> Q.

(** The body of the [try] of the detection button, with the assignment to
    [st.session_state.last_result] that ends it (lines 150-207). *)
Definition analyse_and_store (news_text : pystr) (m : models)
  (s : session_state) : M (verdict * session_state) :=
  let (is_absurd, reason) := absurd_content_detector news_text in
  if is_absurd then ret (Fake 1.0 (Some reason), s)
  else
    features <- generate_features jieba_cut float32 news_text m ;;
    enter Classifier ;;;
    prediction <- lift (predict (model m) features) ;;
    probabilities <- lift (predict_proba (model m) features) ;;
    enter Calibrator ;;;
    p <- lift (calculate_confidence probabilities news_text) ;;
    let (real_prob, fake_prob) := normalise p in
    confidence <- lift (st_progress (if (prediction =? 1)%Z then fake_prob
                                     else real_prob)) ;;
    ret (if (prediction =? 1)%Z then Fake confidence None
         else Real confidence,
         {| show_feedback := show_feedback s;
            last_result := Some {| result_text := news_text;
                                   result_prediction := prediction;
                                   result_confidence := confidence |} |}).

(** One press of the detection button in a session. *)
Definition detect_button (news_text : pystr) (m : models) (s : session_state)
  : outcome * list stage * session_state :=
  match strip news_text with
  | [] => (EmptyInput, [], s)
  | _ =>
      match run (analyse_and_store news_text m s) with
      | (Ok (v, s'), log) => (Verdict v, log, s')
      | (Raise e, log) => (AnalysisFailed e, log, s)
      end
  end.

End Session.

(** The record appended to [feedback.json]. *)
Record feedback_record := {
  timestamp : pystr;
  feedback_text : pystr;
  reported_label : pystr;
  comment : pystr
}.

(** [feedback_data] (lines 228-233); [now] is
    [datetime.now().isoformat()], [actual_label] the choice of the radio
    button and [comment_text] the content of the comment box. *)
Definition feedback_data (now actual_label comment_text : pystr)
  (s : session_state) : feedback_record :=
  {| timestamp := now;
     feedback_text :=
       firstn 500 (match last_result s with
                   | Some r => result_text r
                   | None => py ""
                   end);
     reported_label :=
       if str_eqb actual_label (py "真实") then py "real" else py "fake";
     comment := comment_text |}.

(** The submit button of the feedback form (lines 216-241): the form is
    there only while [show_feedback] holds; [append] writes the record to
    the feedback file and may raise; a successful write closes the form. *)
Definition submit_button (now actual_label comment_text : pystr)
  (append : feedback_record -> result unit) (s : session_state)
  : session_state * option feedback_record :=
  if show_feedback s then
    let data := feedback_data now actual_label comment_text s in
    match append data with
    | Ok _ =>
        ({| show_feedback := false; last_result := last_result s |},
         Some data)
    | Raise _ => (s, None)
    end
  else (s, None).

(** Whether a character is not whitespace, as a test. *)
Definition is_visible (c : codepoint) : bool := negb (is_space c).

(** The confidence that a verdict reports. *)
Definition confidence_of (v : verdict) : Q :=
  match v with
  | Fake confidence _ => confidence
  | Real confidence => confidence
  end.

(** The share that the progress bar is given: the fake one for the label
    1, the real one for any other label. *)
Definition shown_share (prediction : Z) (p : Q * Q) : npfloat :=
  if (prediction =? 1)%Z then snd (normalise p) else fst (normalise p).

(** The verdict that goes with a label. *)
Definition verdict_of (prediction : Z) (confidence : Q) : verdict :=
  if (prediction =? 1)%Z then Fake confidence None else Real confidence.

(** A pair that the calibration turns into shares of the unit interval:
    no value is negative and the sum is positive. *)
Definition proper_pair (real fake : Q) : Prop :=
  0 <= real /\ 0 <= fake /\ 0 < real + fake.

(** A verdict that came from the classifier (it carries no reason). *)
Definition from_model (o : outcome) : bool :=
  match o with
  | Verdict (Fake _ None) => true
  | Verdict (Real _) => true
  | _ => false
  end.

(** The stages in the order of the source. *)
Definition all_stages : list stage :=
  [Normalizer; Vectorizer; Classifier; Calibrator].

(** The six heuristic values in the order of their sorted keys. *)
Definition heuristic_values (text : pystr) : list Q :=
  [ float (flag (any_in exaggeration_markers text));
    float (flag (any_in is_absurd_phrases text));
    inject_Z (len text);
    float (flag (any_in reliable_markers text));
    inject_Z (count FULL_STOP text + 1);
    float (flag (any_in urgent_markers text)) ].

(* ================================================================== *)
(** ** Sample collaborators

    Concrete tokenizers, vectorizers and classifiers on which the pipeline
    can be run. *)

Module Samples.

(** A tokenizer that yields every character as a token, the whitespace
    between words included ([jieba.cut] yields the separators of its input
    as tokens too, and one token per character where no dictionary word or
    Latin run spans two of them, as in 我a). *)
Definition cut_chars (text : pystr) : list pystr := map (fun c => [c]) text.

(** A tokenizer that cuts at whitespace and yields each whitespace
    character as a token of its own, as [jieba.cut] does between Latin
    words: fake news gives fake, the space, news. *)
Fixpoint cut_at_whitespace (text : pystr) : list pystr :=
  match text with
  | [] => []
  | c :: text' =>
      if is_space c then [c] :: cut_at_whitespace text'
      else
        match cut_at_whitespace text' with
        | (d :: token) :: tokens =>
            if is_space d then [c] :: (d :: token) :: tokens
            else (c :: d :: token) :: tokens
        | tokens => [c] :: tokens
        end
  end.

(** No rounding. *)
Definition exact (x : Q) : Q := x.

Definition even_classifier : classifier :=
  {| predict := fun _ => Ok 0%Z;
     predict_proba := fun _ => Ok [0.5; 0.5] |}.

(** A vectorizer with a vocabulary of three terms. *)
Definition small_models : models :=
  {| tfidf := fun _ => Ok [0.0; 0.6; 0.8];
     model := even_classifier;
     expected_dim := 204 |}.

(** A vectorizer with a vocabulary of 250 terms. *)
Definition wide_models : models :=
  {| tfidf := fun _ => Ok (repeat 0.0 250);
     model := even_classifier;
     expected_dim := 204 |}.

(** A vectorizer that raises on every input. *)
Definition broken_models : models :=
  {| tfidf := fun _ => Raise VectorizerError;
     model := even_classifier;
     expected_dim := 204 |}.

(** A classifier that raises on every call of [predict]. *)
Definition broken_classifier : classifier :=
  {| predict := fun _ => Raise ClassifierError;
     predict_proba := fun _ => Ok [0.5; 0.5] |}.

(** A classifier whose label is 0 while most of the probability is on
    class 1. *)
Definition skewed_classifier : classifier :=
  {| predict := fun _ => Ok 0%Z;
     predict_proba := fun _ => Ok [0.2; 0.8] |}.

(** A vectorizer with a vocabulary of 198 terms, with each classifier. *)
Definition unfit_models : models :=
  {| tfidf := fun _ => Ok (repeat 0.0 198);
     model := broken_classifier;
     expected_dim := 204 |}.

Definition skewed_models : models :=
  {| tfidf := fun _ => Ok (repeat 0.0 198);
     model := skewed_classifier;
     expected_dim := 204 |}.

(** A session in which the text 旧闻 was analysed before. *)
Definition old_session : session_state :=
  {| show_feedback := true;
     last_result := Some {| result_text := py "旧闻";
                            result_prediction := 0;
                            result_confidence := 0.5 |} |}.

End Samples.

(* ================================================================== *)
(** ** Tactics *)

(** Unfolds the operations of the pipeline monad. *)
Ltac unfold_pipeline :=
  cbv [run bind enter lift try_except ret].

(** Turns a boolean test on code points into linear arithmetic. *)
Ltac char_arith :=
  unfold clean_or_space, word_or_space, visible,
    is_clean_char, is_word_char, is_space, lower_char, SPACE in *;
  rewrite ?orb_true_iff, ?andb_true_iff, ?N.leb_le, ?N.eqb_eq in *;
  lia.

Ltac char_false := apply not_true_iff_false; intro; char_arith.

(* ================================================================== *)
(** ** Substring search *)

Section Search.

Lemma starts_with_head c sub text :
  starts_with (c :: sub) text = true -> In c text.
Proof.
  destruct text as [|b text]; simpl; [discriminate|].
  intros H. apply andb_prop in H as [H _].
  apply N.eqb_eq in H. now left.
Qed.

Lemma contains_head c sub text :
  contains (c :: sub) text = true -> In c text.
Proof.
  induction text as [|b text IH].
  - simpl. discriminate.
  - intros H. change (contains (c :: sub) (b :: text))
      with (starts_with (c :: sub) (b :: text) || contains (c :: sub) text) in H.
    apply orb_prop in H as [H|H].
    + now apply starts_with_head in H.
    + right. auto.
Qed.

Lemma any_in_exists phrases text :
  any_in phrases text = true <->
  exists phrase, In phrase phrases /\ contains phrase text = true.
Proof. unfold any_in. apply existsb_exists. Qed.

Lemma any_in_incl l1 l2 text :
  incl l1 l2 -> any_in l1 text = true -> any_in l2 text = true.
Proof.
  intros Hincl H. apply any_in_exists in H as (p & Hp & Hc).
  apply any_in_exists. exists p. split; auto.
Qed.

Lemma any_in_app l1 l2 text :
  any_in (l1 ++ l2) text = any_in l1 text || any_in l2 text.
Proof. unfold any_in. apply existsb_app. Qed.

(** With a one-character needle, [count] is the number of occurrences of
    that character. *)
Lemma count_from_char c text :
  count_from [c] text 0 = List.length (filter (N.eqb c) text).
Proof.
  induction text as [|b text IH]; [reflexivity|].
  cbn [count_from starts_with List.length Nat.sub filter].
  rewrite andb_true_r.
  destruct (c =? b)%N; cbn [List.length]; now rewrite IH.
Qed.

End Search.

(* ================================================================== *)
(** ** Whitespace stripping *)

Section Strip.

Lemma lstrip_nil text :
  lstrip text = [] -> Forall (fun c => is_space c = true) text.
Proof.
  induction text as [|c text IH]; simpl; [constructor|].
  destruct (is_space c) eqn:E; [|discriminate].
  intros H. constructor; auto.
Qed.

Lemma rstrip_nil text :
  rstrip text = [] -> Forall (fun c => is_space c = true) text.
Proof.
  induction text as [|c text IH]; simpl; [constructor|].
  destruct (rstrip text) eqn:E; [|discriminate].
  destruct (is_space c) eqn:Ec; [|discriminate].
  intros _. constructor; auto.
Qed.

Lemma lstrip_keeps c text :
  In c text -> is_space c = false -> In c (lstrip text).
Proof.
  induction text as [|b text IH]; simpl; [tauto|].
  intros [->|Hin] Hc.
  - rewrite Hc. now left.
  - destruct (is_space b); [auto | now right].
Qed.

(** A text with a character that is not whitespace is not blank. *)
Lemma strip_not_nil c text :
  In c text -> is_space c = false -> strip text <> [].
Proof.
  intros Hin Hc Hnil. unfold strip in Hnil.
  apply rstrip_nil in Hnil.
  rewrite Forall_forall in Hnil.
  specialize (Hnil c (lstrip_keeps _ _ Hin Hc)). congruence.
Qed.

End Strip.

(* ================================================================== *)
(** ** The absurd-content gate *)

Section Gate.

Lemma detector_loop_fst phrases text :
  fst (detector_loop phrases text) = any_in phrases text.
Proof.
  induction phrases as [|p ps IH]; [reflexivity|].
  cbn [detector_loop any_in existsb].
  destruct (contains p text); [reflexivity|exact IH].
Qed.

(** The loop answers with the first phrase of the list that occurs. *)
Lemma detector_loop_first phrases text :
  any_in phrases text = true ->
  exists pre phrase post,
    phrases = pre ++ phrase :: post
    /\ contains phrase text = true
    /\ any_in pre text = false
    /\ detector_loop phrases text = (true, reason_prefix ++ phrase).
Proof.
  induction phrases as [|p ps IH]; [discriminate|].
  cbn [any_in existsb detector_loop].
  destruct (contains p text) eqn:Hp.
  - intros _. exists [], p, ps. repeat split; assumption.
  - intros H. destruct (IH H) as (pre & q & post & -> & Hq & Hpre & Hloop).
    exists (p :: pre), q, post. repeat split; auto.
    cbn [any_in existsb]. now rewrite Hp.
Qed.

Lemma detector_loop_none phrases text :
  any_in phrases text = false ->
  detector_loop phrases text = (false, []).
Proof.
  induction phrases as [|p ps IH]; [reflexivity|].
  cbn [any_in existsb detector_loop].
  destruct (contains p text); [discriminate|exact IH].
Qed.

(** No absurd phrase is empty or starts with whitespace. *)
Lemma absurd_phrases_visible phrase :
  In phrase absurd_phrases ->
  exists c rest, phrase = c :: rest /\ is_space c = false.
Proof.
  unfold absurd_phrases.
  intros H. repeat (destruct H as [<-|H]; [eexists _, _; split; reflexivity|]).
  destruct H.
Qed.

Lemma absurd_text_not_blank text :
  any_in absurd_phrases text = true -> strip text <> [].
Proof.
  intros H. apply any_in_exists in H as (p & Hp & Hc).
  destruct (absurd_phrases_visible p Hp) as (c & rest & -> & Hs).
  apply contains_head in Hc. eapply strip_not_nil; eauto.
Qed.

End Gate.

(** C1: a text that contains one of the absurd phrases gets a Fake verdict
    with confidence 1.0 whose reason names the first phrase of the list
    (in list order) that occurs in it; no stage of the pipeline is entered,
    whatever the tokenizer, the vectorizer and the classifier are. *)
Theorem absurd_text_is_fake
  (jieba_cut : pystr -> list pystr) (float32 : Q -> Q)
  (text : pystr) (m : models) :
  any_in absurd_phrases text = true ->
  exists pre phrase post,
    absurd_phrases = pre ++ phrase :: post
    /\ contains phrase text = true
    /\ (forall q, In q pre -> contains q text = false)
    /\ main_application jieba_cut float32 text m
       = (Verdict (Fake 1.0 (Some (reason_prefix ++ phrase))), []).
Proof.
  intros H.
  destruct (detector_loop_first _ _ H) as (pre & p & post & Hl & Hp & Hpre & Hloop).
  exists pre, p, post. repeat split; auto.
  - intros q Hq. destruct (contains q text) eqn:E; [|reflexivity].
    assert (any_in pre text = true) by (apply any_in_exists; eauto).
    congruence.
  - unfold main_application.
    pose proof (absurd_text_not_blank _ H) as Hne.
    destruct (strip text) as [|c s]; [congruence|].
    unfold analyse, absurd_content_detector. rewrite Hloop. reflexivity.
Qed.

(** The specification's example: 太阳消失 is the phrase reported. *)
Lemma absurd_text_is_fake_witness :
  exists pre phrase post,
    absurd_phrases = pre ++ phrase :: post
    /\ contains phrase (py "科学家称：太阳消失，地球即将停转！") = true
    /\ (forall q, In q pre ->
        contains q (py "科学家称：太阳消失，地球即将停转！") = false)
    /\ main_application Samples.cut_chars Samples.exact
         (py "科学家称：太阳消失，地球即将停转！") Samples.broken_models
       = (Verdict (Fake 1.0 (Some (reason_prefix ++ phrase))), []).
Proof.
  apply (absurd_text_is_fake Samples.cut_chars Samples.exact
           (py "科学家称：太阳消失，地球即将停转！") Samples.broken_models).
  vm_compute. reflexivity.
Defined.

(* ================================================================== *)
(** ** The heuristic features *)

(** C8: every flag entry of the heuristic features is exactly 0.0 or 1.0,
    [length] is the number of characters of the text, and [sentences] is
    the number of 。 characters plus one, hence at least 1. *)
Theorem extract_text_features_shape (text : pystr) :
  let d := extract_text_features text in
  (forall key, In key flag_fields ->
     getitem d key = Ok (PyFloat 0.0) \/ getitem d key = Ok (PyFloat 1.0))
  /\ getitem d "length" = Ok (PyInt (Z.of_nat (List.length text)))
  /\ (exists (mark : codepoint) (n : Z),
        py "。" = [mark]
        /\ getitem d "sentences" = Ok (PyInt n)
        /\ n = (Z.of_nat (List.length (filter (N.eqb mark) text)) + 1)%Z
        /\ (1 <= n)%Z).
Proof.
  cbv zeta. split; [|split].
  - intros key Hkey. unfold flag_fields in Hkey.
    repeat (destruct Hkey as [<-|Hkey];
            [cbn [extract_text_features getitem String.eqb Ascii.eqb Bool.eqb];
             unfold flag;
             match goal with |- context [any_in ?l text] =>
               destruct (any_in l text) end; auto|]).
    destruct Hkey.
  - reflexivity.
  - eexists _, _. split; [vm_compute; reflexivity|]. split; [reflexivity|].
    unfold count, FULL_STOP. rewrite count_from_char. split; [reflexivity|lia].
Qed.

(** C9: the gate's phrase list strictly extends the list behind
    [is_absurd]: every text with [is_absurd = 1.0] is matched by the gate,
    and the text 穿越古代 is matched by the gate although its [is_absurd]
    is 0.0. *)
Theorem gate_extends_is_absurd :
  (forall text,
     getitem (extract_text_features text) "is_absurd" = Ok (PyFloat 1.0) ->
     fst (absurd_content_detector text) = true)
  /\ incl is_absurd_phrases absurd_phrases
  /\ ~ incl absurd_phrases is_absurd_phrases
  /\ absurd_content_detector (py "穿越古代")
     = (true, py "检测到荒谬内容: 穿越古代")
  /\ getitem (extract_text_features (py "穿越古代")) "is_absurd"
     = Ok (PyFloat 0.0).
Proof.
  assert (Hincl : incl is_absurd_phrases absurd_phrases).
  { unfold is_absurd_phrases, absurd_phrases. intros p Hp. simpl in Hp |- *. tauto. }
  split; [|split; [exact Hincl|split; [|split]]].
  - intros text H.
    cbn [extract_text_features getitem String.eqb Ascii.eqb Bool.eqb] in H.
    unfold absurd_content_detector. rewrite detector_loop_fst.
    apply any_in_incl with (l1 := is_absurd_phrases); [exact Hincl|].
    unfold flag in H. destruct (any_in is_absurd_phrases text); [reflexivity|].
    discriminate H.
  - intros H. specialize (H (py "穿越古代")).
    assert (Hin : In (py "穿越古代") absurd_phrases) by (vm_compute; tauto).
    apply H in Hin. vm_compute in Hin.
    repeat (destruct Hin as [Hin|Hin]; [discriminate Hin|]). exact Hin.
  - vm_compute. reflexivity.
  - vm_compute. reflexivity.
Qed.

Lemma gate_extends_is_absurd_witness :
  fst (absurd_content_detector (py "今天太阳消失了")) = true.
Proof.
  apply (proj1 gate_extends_is_absurd (py "今天太阳消失了")).
  vm_compute. reflexivity.
Defined.

(* ================================================================== *)
(** ** The confidence computation *)

Section Confidence.

Lemma py_min_cases a b :
  (a <= b /\ py_min a b = a) \/ (b < a /\ py_min a b = b).
Proof.
  unfold py_min. destruct (Qle_bool a b) eqn:E.
  - left. split; [now apply Qle_bool_iff|reflexivity].
  - right. split; [|reflexivity].
    apply Qnot_le_lt. intros H. apply Qle_bool_iff in H. congruence.
Qed.

Lemma py_min_le_r a b : py_min a b <= b.
Proof. destruct (py_min_cases a b) as [[H ->]|[H ->]]; lra. Qed.

Lemma py_min_nonneg a b : 0 <= a -> 0 <= b -> 0 <= py_min a b.
Proof. intros. destruct (py_min_cases a b) as [[_ ->]|[_ ->]]; assumption. Qed.

(** The two branches of [calculate_confidence]. *)
Lemma calculate_confidence_boost real fake text :
  any_in authority_markers text = true ->
  calculate_confidence [real; fake] text = Ok (py_min (real * 1.7) 0.97, fake).
Proof. intros H. unfold calculate_confidence. now rewrite H. Qed.

Lemma calculate_confidence_plain real fake text :
  any_in authority_markers text = false ->
  calculate_confidence [real; fake] text = Ok (real, fake).
Proof. intros H. unfold calculate_confidence. now rewrite H. Qed.

Lemma authority_markers_reliable :
  reliable_markers = authority_markers ++ [py "官方"].
Proof. vm_compute. reflexivity. Qed.

Lemma share_sum real fake :
  0 < real + fake ->
  real / (real + fake) + fake / (real + fake) == 1.
Proof. intros H. field. lra. Qed.

Lemma share_bounds real fake :
  0 <= real -> 0 <= fake -> 0 < real + fake ->
  0 <= real / (real + fake) <= 1 /\ 0 <= fake / (real + fake) <= 1.
Proof.
  intros Hr Hf Ht. repeat split.
  - apply Qle_shift_div_l; [assumption|lra].
  - apply Qle_shift_div_r; [assumption|lra].
  - apply Qle_shift_div_l; [assumption|lra].
  - apply Qle_shift_div_r; [assumption|lra].
Qed.

(** With a sum that is not zero both quotients are numbers. *)
Lemma normalise_finite real fake :
  ~ real + fake == 0 ->
  normalise (real, fake)
  = (Finite (real / (real + fake)), Finite (fake / (real + fake))).
Proof.
  intros H. unfold normalise, np_div.
  destruct (Qeq_bool (real + fake) 0) eqn:E; [|reflexivity].
  apply Qeq_bool_iff in E. contradiction.
Qed.

Lemma normalise_zero_sum real fake :
  real + fake == 0 -> normalise (real, fake) = (NotFinite, NotFinite).
Proof.
  intros H. unfold normalise, np_div.
  apply Qeq_bool_iff in H. now rewrite H.
Qed.

(** The progress bar shows exactly the numbers of the unit interval. *)
Lemma st_progress_shows x :
  0 <= x -> x <= 1 -> st_progress (Finite x) = Ok x.
Proof.
  intros H0 H1. unfold st_progress.
  apply Qle_bool_iff in H0, H1. now rewrite H0, H1.
Qed.

Lemma st_progress_shown value x :
  st_progress value = Ok x -> value = Finite x /\ 0 <= x <= 1.
Proof.
  destruct value as [y|]; cbn [st_progress]; [|discriminate].
  destruct (Qle_bool 0 y) eqn:H0; [|discriminate].
  destruct (Qle_bool y 1) eqn:H1; [|discriminate].
  cbn [andb]. intros [= <-].
  apply Qle_bool_iff in H0, H1. auto.
Qed.

Lemma st_progress_refuses value e :
  st_progress value = Raise e -> e = StreamlitAPIException.
Proof.
  destruct value as [y|]; cbn [st_progress].
  - destruct (Qle_bool 0 y && Qle_bool y 1); [discriminate|now intros [= <-]].
  - now intros [= <-].
Qed.

(** The calibrated pair of a pair of probabilities, and its shares. *)
Lemma calibrated_shares real fake text :
  0 <= real -> 0 <= fake -> 0 < real + fake ->
  exists p real' fake',
    calculate_confidence [real; fake] text = Ok p
    /\ (any_in authority_markers text = false -> p = (real, fake))
    /\ normalise p = (Finite real', Finite fake')
    /\ real' + fake' == 1
    /\ 0 <= real' <= 1
    /\ 0 <= fake' <= 1.
Proof.
  intros Hr Hf Hsum.
  assert (H : exists boosted,
             calculate_confidence [real; fake] text = Ok (boosted, fake)
             /\ (any_in authority_markers text = false -> boosted = real)
             /\ 0 <= boosted /\ 0 < boosted + fake).
  { destruct (any_in authority_markers text) eqn:E.
    - exists (py_min (real * 1.7) 0.97).
      split; [now apply calculate_confidence_boost|].
      split; [discriminate|].
      split; [apply py_min_nonneg; lra|].
      destruct (py_min_cases (real * 1.7) 0.97) as [[_ ->]|[_ ->]]; lra.
    - exists real. split; [now apply calculate_confidence_plain|].
      repeat split; assumption. }
  destruct H as (boosted & Hcc & Hplain & Hb & Ht).
  exists (boosted, fake), (boosted / (boosted + fake)), (fake / (boosted + fake)).
  split; [exact Hcc|].
  split; [intros E; now rewrite (Hplain E)|].
  split; [apply normalise_finite; lra|].
  split; [now apply share_sum|].
  now apply share_bounds.
Qed.

End Confidence.

(** C10: [calculate_confidence] returns the fake probability it was given;
    only the real probability can differ from the input. *)
Theorem fake_probability_unchanged (real fake : Q) (text : pystr) :
  exists real',
    calculate_confidence [real; fake] text = Ok (real', fake)
    /\ (real' = real \/ real' = py_min (real * 1.7) 0.97).
Proof.
  unfold calculate_confidence.
  destruct (any_in authority_markers text); eexists; split; eauto.
Qed.

(** C3: the calibration of a pair of probabilities, that is
    [calculate_confidence] followed by the division by the sum that
    [main_application] performs on its result (lines 167-171), leaves a pair
    of numbers between 0 and 1 that sum to 1, whatever the text; without a
    marker [calculate_confidence] returns the input pair, so the division
    is the step that renormalises, with or without a boost. *)
Theorem normalised_confidence_is_probability_pair
  (real fake : Q) (text : pystr) :
  0 <= real -> 0 <= fake -> real + fake == 1 ->
  exists p real' fake',
    calculate_confidence [real; fake] text = Ok p
    /\ (any_in authority_markers text = false -> p = (real, fake))
    /\ normalise p = (Finite real', Finite fake')
    /\ real' + fake' == 1
    /\ 0 <= real' <= 1
    /\ 0 <= fake' <= 1.
Proof.
  intros Hr Hf Hsum. apply calibrated_shares; lra.
Qed.

Lemma normalised_confidence_is_probability_pair_witness :
  exists p real' fake',
    calculate_confidence [0.5; 0.5] (py "新华社报道：经调查，该事件系谣言。") = Ok p
    /\ (any_in authority_markers (py "新华社报道：经调查，该事件系谣言。") = false
        -> p = (0.5, 0.5))
    /\ normalise p = (Finite real', Finite fake')
    /\ real' + fake' == 1
    /\ 0 <= real' <= 1
    /\ 0 <= fake' <= 1.
Proof.
  apply (normalised_confidence_is_probability_pair 0.5 0.5
           (py "新华社报道：经调查，该事件系谣言。")).
  - vm_compute. discriminate.
  - vm_compute. discriminate.
  - vm_compute. reflexivity.
Defined.

(** Before the division the boosted pair need not sum to 1: with an
    authority marker [calculate_confidence] turns (0.5, 0.5) into
    (0.85, 0.5). *)
Lemma calculate_confidence_not_normalised :
  calculate_confidence [0.5; 0.5] (py "新华社") = Ok (0.85, 0.5)
  /\ ~ (0.85 + 0.5 == 1).
Proof.
  split; [vm_compute; reflexivity|].
  vm_compute. discriminate.
Qed.

(** C4, as the code has it: for a text with one of the calibrator's
    markers (新华社, 人民日报) and a real probability that is not negative,
    the returned real probability never exceeds 0.97, is not below the
    input whenever the input is itself at most 0.97, and is the ceiling
    0.97 for every input from 0.97 on. *)
Theorem boost_capped_and_monotone_below_cap
  (real fake : Q) (text : pystr) :
  any_in authority_markers text = true ->
  0 <= real ->
  exists real',
    calculate_confidence [real; fake] text = Ok (real', fake)
    /\ real' <= 0.97
    /\ (real <= 0.97 -> real <= real')
    /\ (0.97 <= real -> real' = 0.97).
Proof.
  intros Hm Hr. exists (py_min (real * 1.7) 0.97).
  split; [now apply calculate_confidence_boost|].
  split; [apply py_min_le_r|].
  destruct (py_min_cases (real * 1.7) 0.97) as [[H ->]|[H ->]]; split; intros; try lra.
  reflexivity.
Qed.

Lemma boost_capped_and_monotone_below_cap_witness :
  exists real',
    calculate_confidence [0.4; 0.6] (py "人民日报评论") = Ok (real', 0.6)
    /\ real' <= 0.97
    /\ (0.4 <= 0.97 -> 0.4 <= real')
    /\ (0.97 <= 0.4 -> real' = 0.97).
Proof.
  apply (boost_capped_and_monotone_below_cap 0.4 0.6 (py "人民日报评论")).
  - vm_compute. reflexivity.
  - vm_compute. discriminate.
Defined.

(** C4 as stated fails: a real probability of 1.0 comes back as 0.97. *)
Lemma boost_lowers_certain_real :
  calculate_confidence [1.0; 0.0] (py "新华社") = Ok (0.97, 0.0)
  /\ ~ (1.0 <= 0.97).
Proof.
  split; [vm_compute; reflexivity|].
  vm_compute. intros H. apply H. reflexivity.
Qed.

(** C5, as the code has it: the boost is applied exactly when the text
    contains 新华社 or 人民日报; [reliable] is 1.0 exactly when the text
    contains one of these two or 官方.  So every boosted text is reliable,
    and a reliable text is boosted unless 官方 is its only marker. *)
Theorem boost_markers_within_reliable_markers (text : pystr) :
  (any_in authority_markers text = true ->
     forall real fake,
       calculate_confidence [real; fake] text
       = Ok (py_min (real * 1.7) 0.97, fake))
  /\ (any_in authority_markers text = false ->
        forall real fake,
          calculate_confidence [real; fake] text = Ok (real, fake))
  /\ (getitem (extract_text_features text) "reliable" = Ok (PyFloat 1.0)
      <-> any_in authority_markers text = true
          \/ contains (py "官方") text = true).
Proof.
  split; [|split].
  - intros H real fake. now apply calculate_confidence_boost.
  - intros H real fake. now apply calculate_confidence_plain.
  - cbn [extract_text_features getitem String.eqb Ascii.eqb Bool.eqb].
    rewrite authority_markers_reliable, any_in_app.
    cbn [any_in existsb]. rewrite orb_false_r. unfold flag.
    destruct (any_in authority_markers text), (contains (py "官方") text);
      cbn [orb]; split; intros H; auto; try discriminate H;
      destruct H; discriminate.
Qed.

Lemma boost_markers_within_reliable_markers_witness :
  calculate_confidence [0.5; 0.5] (py "新华社报道：经调查，该事件系谣言。")
  = Ok (py_min (0.5 * 1.7) 0.97, 0.5).
Proof.
  apply (proj1 (boost_markers_within_reliable_markers
                  (py "新华社报道：经调查，该事件系谣言。"))).
  vm_compute. reflexivity.
Defined.

(** C5 as stated fails: the text 官方 has [reliable = 1.0] and is not
    boosted (0.5 stays 0.5, where the boost would give 0.85). *)
Lemma official_is_reliable_but_not_boosted :
  getitem (extract_text_features (py "官方")) "reliable" = Ok (PyFloat 1.0)
  /\ calculate_confidence [0.5; 0.5] (py "官方") = Ok (0.5, 0.5)
  /\ ~ (0.5 == py_min (0.5 * 1.7) 0.97).
Proof.
  split; [vm_compute; reflexivity|].
  split; [vm_compute; reflexivity|].
  vm_compute. discriminate.
Qed.

(* ================================================================== *)
(** ** The feature-vector assembly *)

Section Assembly.

Variable jieba_cut : pystr -> list pystr.
Variable float32 : Q -> Q.

(** The six heuristic values are always available, whatever the text. *)
Lemma adv_vector_ok text :
  exists adv_vector,
    comprehension
      (fun key => match getitem (extract_text_features text) key with
                  | Ok v => Ok (float v)
                  | Raise e => Raise e
                  end)
      (sorted (extract_text_features text)) = Ok adv_vector
    /\ List.length adv_vector = 6%nat.
Proof. eexists. split; reflexivity. Qed.

(** What a run of [generate_features] amounts to. *)
Lemma generate_features_run text m :
  exists adv_vector,
    List.length adv_vector = 6%nat
    /\ run (generate_features jieba_cut float32 text m)
       = (match tfidf m (preprocess_text jieba_cut text) with
          | Ok tfidf_vector =>
              Ok (map float32
                    (firstn (expected_dim m) (tfidf_vector ++ adv_vector)))
          | Raise _ => Ok (zeros (expected_dim m))
          end, [Normalizer; Vectorizer]).
Proof.
  destruct (adv_vector_ok text) as (adv & Hadv & Hlen).
  exists adv. split; [exact Hlen|].
  unfold generate_features. unfold_pipeline. rewrite Hadv.
  destruct (tfidf m (preprocess_text jieba_cut text)); reflexivity.
Qed.

Lemma zeros_length n : List.length (zeros n) = n.
Proof. apply repeat_length. Qed.

End Assembly.

(** X23: the assembler never raises: it always returns a vector, of at
    most [expected_dim] entries; when the vectorizer answers
    with a row, the length is the smaller of [expected_dim] and the row's
    length plus six (a longer vector is cut, a shorter one is not padded);
    when the vectorizer raises, the vector is [expected_dim] zeros. *)
Lemma generate_features_length
  (jieba_cut : pystr -> list pystr) (float32 : Q -> Q)
  (text : pystr) (m : models) :
  exists features,
    fst (run (generate_features jieba_cut float32 text m)) = Ok features
    /\ (List.length features <= expected_dim m)%nat
    /\ (forall tfidf_vector,
          tfidf m (preprocess_text jieba_cut text) = Ok tfidf_vector ->
          List.length features
          = Nat.min (expected_dim m) (List.length tfidf_vector + 6))
    /\ (forall e,
          tfidf m (preprocess_text jieba_cut text) = Raise e ->
          features = zeros (expected_dim m)).
Proof.
  destruct (generate_features_run jieba_cut float32 text m) as (adv & Hlen & Hrun).
  rewrite Hrun. cbn [fst].
  destruct (tfidf m (preprocess_text jieba_cut text)) as [row|e].
  - eexists. split; [reflexivity|].
    rewrite length_map, length_firstn, length_app, Hlen.
    split; [lia|]. split; [|discriminate].
    intros row' [= <-]. reflexivity.
  - eexists. split; [reflexivity|].
    rewrite zeros_length. split; [lia|]. split; [discriminate|reflexivity].
Qed.

(** A vocabulary of 250 terms: the vector is cut to 204 entries. *)
Lemma generate_features_length_witness :
  exists features,
    fst (run (generate_features Samples.cut_chars Samples.exact
                (py "新闻") Samples.wide_models)) = Ok features
    /\ List.length features = 204%nat.
Proof.
  destruct (generate_features_length Samples.cut_chars Samples.exact
              (py "新闻") Samples.wide_models) as (v & Hv & _ & Hrow & _).
  exists v. split; [exact Hv|].
  rewrite (Hrow _ eq_refl). reflexivity.
Defined.

(** C2 fails on the code where the concatenation is shorter than
    [expected_dim]: with a vocabulary of three terms the assembled vector
    has nine entries, not 204 (the comment in the source promises the
    dimension, the slice only cuts). *)
Theorem generate_features_short_vector :
  exists features,
    fst (run (generate_features Samples.cut_chars Samples.exact
                (py "新闻") Samples.small_models)) = Ok features
    /\ List.length features = 9%nat
    /\ expected_dim Samples.small_models = 204%nat.
Proof.
  eexists. split; [vm_compute; reflexivity|]. split; reflexivity.
Qed.

(* ================================================================== *)
(** ** The button handler *)

Section Handler.

Variable jieba_cut : pystr -> list pystr.
Variable float32 : Q -> Q.

(** Past the gate, a run is decided by the classifier's answers on the
    assembled features. *)
Lemma analyse_past_gate text m features :
  any_in absurd_phrases text = false ->
  fst (run (generate_features jieba_cut float32 text m)) = Ok features ->
  fst (run (analyse jieba_cut float32 text m))
  = match predict (model m) features with
    | Raise e => Raise e
    | Ok prediction =>
        match predict_proba (model m) features with
        | Raise e => Raise e
        | Ok probabilities =>
            match calculate_confidence probabilities text with
            | Raise e => Raise e
            | Ok p =>
                match st_progress (shown_share prediction p) with
                | Raise e => Raise e
                | Ok confidence => Ok (verdict_of prediction confidence)
                end
            end
        end
    end.
Proof.
  intros Hgate Hfeat.
  unfold analyse, absurd_content_detector.
  rewrite (detector_loop_none _ _ Hgate).
  revert Hfeat. unfold_pipeline.
  destruct (generate_features jieba_cut float32 text m []) as [[v|e] log];
    cbn [fst]; [|discriminate].
  intros [= ->].
  destruct (predict (model m) features) as [prediction|e]; [|reflexivity].
  destruct (predict_proba (model m) features) as [ps|e]; [|reflexivity].
  destruct (calculate_confidence ps text) as [p|e]; [|reflexivity].
  unfold shown_share, verdict_of.
  destruct (normalise p) as [real_prob fake_prob]. cbn [fst snd].
  destruct (prediction =? 1)%Z;
    match goal with |- context [st_progress ?v] =>
      destruct (st_progress v) end; reflexivity.
Qed.

(** A proper pair of the classifier is shown, whatever the text and the
    label. *)
Lemma proper_pair_shown real fake text prediction :
  proper_pair real fake ->
  exists p confidence,
    calculate_confidence [real; fake] text = Ok p
    /\ st_progress (shown_share prediction p) = Ok confidence
    /\ 0 <= confidence <= 1.
Proof.
  intros (Hr & Hf & Ht).
  destruct (calibrated_shares real fake text Hr Hf Ht)
    as (p & real' & fake' & Hcc & _ & Hn & _ & Hreal & Hfake).
  exists p. unfold shown_share. rewrite Hn. cbn [fst snd].
  destruct (prediction =? 1)%Z; eexists; (split; [exact Hcc|]);
    (split; [now apply st_progress_shows|assumption]).
Qed.

Lemma main_application_outcome text m :
  fst (main_application jieba_cut float32 text m)
  = match strip text with
    | [] => EmptyInput
    | _ => match fst (run (analyse jieba_cut float32 text m)) with
           | Ok v => Verdict v
           | Raise e => AnalysisFailed e
           end
    end.
Proof.
  unfold main_application. destruct (strip text); [reflexivity|].
  destruct (run (analyse jieba_cut float32 text m)) as [[v|e] log]; reflexivity.
Qed.

Lemma gate_verdict text m :
  any_in absurd_phrases text = true ->
  exists v, fst (run (analyse jieba_cut float32 text m)) = Ok v.
Proof.
  intros H. destruct (detector_loop_first _ _ H) as (_ & p & _ & _ & _ & _ & Hloop).
  unfold analyse, absurd_content_detector. rewrite Hloop.
  eexists. reflexivity.
Qed.

Lemma calculate_confidence_raises probabilities text e :
  calculate_confidence probabilities text = Raise e ->
  e = ValueError /\ List.length probabilities <> 2%nat.
Proof.
  unfold calculate_confidence.
  destruct probabilities as [|a [|b [|c l]]]; intros [= <-]; split;
    cbn; congruence.
Qed.

End Handler.

(** C7: when the vectorizer raises on the normalised text, the assembler
    returns [expected_dim] zeros instead of raising; a run of the handler
    then fails only if the classifier itself fails on that zero vector: it
    raises, or its probability row is not a pair, or the pair is not a
    proper pair of probabilities (a negative value or a sum that is not
    positive, which the display refuses); with a classifier that answers
    with a proper pair, every text that is not blank gets a verdict. *)
Theorem vectorizer_failure_degrades_to_zeros
  (jieba_cut : pystr -> list pystr) (float32 : Q -> Q)
  (text : pystr) (m : models) (e : exn) :
  tfidf m (preprocess_text jieba_cut text) = Raise e ->
  let neutral := zeros (expected_dim m) in
  fst (run (generate_features jieba_cut float32 text m)) = Ok neutral
  /\ List.length neutral = expected_dim m
  /\ Forall (fun x => x = 0) neutral
  /\ (forall e',
        fst (main_application jieba_cut float32 text m) = AnalysisFailed e' ->
        predict (model m) neutral = Raise e'
        \/ predict_proba (model m) neutral = Raise e'
        \/ (e' = ValueError
            /\ exists probabilities,
                 predict_proba (model m) neutral = Ok probabilities
                 /\ List.length probabilities <> 2%nat)
        \/ (e' = StreamlitAPIException
            /\ exists real fake,
                 predict_proba (model m) neutral = Ok [real; fake]
                 /\ ~ proper_pair real fake))
  /\ (forall prediction real fake,
        strip text <> [] ->
        predict (model m) neutral = Ok prediction ->
        predict_proba (model m) neutral = Ok [real; fake] ->
        proper_pair real fake ->
        is_verdict (fst (main_application jieba_cut float32 text m)) = true).
Proof.
  intros Hraise neutral.
  assert (Hfeat : fst (run (generate_features jieba_cut float32 text m))
                  = Ok neutral).
  { destruct (generate_features_run jieba_cut float32 text m) as (adv & _ & Hrun).
    rewrite Hrun, Hraise. reflexivity. }
  split; [exact Hfeat|].
  split; [apply zeros_length|].
  split; [apply Forall_forall; intros x Hx; now apply repeat_spec in Hx|].
  split.
  - intros e'. rewrite main_application_outcome.
    destruct (strip text) as [|c0 s0]; [discriminate|].
    destruct (any_in absurd_phrases text) eqn:Hgate.
    + destruct (gate_verdict jieba_cut float32 text m Hgate) as (v & ->).
      discriminate.
    + rewrite (analyse_past_gate _ _ _ _ _ Hgate Hfeat).
      destruct (predict (model m) neutral) as [prediction|e1];
        [|intros [= ->]; now left].
      destruct (predict_proba (model m) neutral) as [ps|e2];
        [|intros [= ->]; right; now left].
      destruct (calculate_confidence ps text) as [pair|e3] eqn:Hcc.
      * destruct (st_progress (shown_share prediction pair))
          as [confidence|e4] eqn:Hshow; [discriminate|].
        intros [= ->]. right. right. right.
        split; [now apply st_progress_refuses in Hshow|].
        destruct ps as [|real [|fake [|x l]]]; try discriminate Hcc.
        exists real, fake. split; [reflexivity|].
        intros Hproper.
        destruct (proper_pair_shown real fake text prediction Hproper)
          as (p' & c' & Hcc' & Hshow' & _).
        congruence.
      * intros [= ->]. right. right. left.
        apply calculate_confidence_raises in Hcc as [-> Hlen].
        split; [reflexivity|]. exists ps. split; [reflexivity|exact Hlen].
  - intros prediction real fake Hne Hp Hpp Hproper.
    rewrite main_application_outcome.
    destruct (strip text) as [|c0 s0]; [congruence|].
    destruct (any_in absurd_phrases text) eqn:Hgate.
    + destruct (gate_verdict jieba_cut float32 text m Hgate) as (v & ->).
      reflexivity.
    + rewrite (analyse_past_gate _ _ _ _ _ Hgate Hfeat), Hp, Hpp.
      destruct (proper_pair_shown real fake text prediction Hproper)
        as (p' & c' & -> & -> & _).
      reflexivity.
Qed.

(** A vectorizer that raises on every input: the run ends in a verdict of
    Real with confidence 0.5, after all four stages. *)
Lemma vectorizer_failure_degrades_to_zeros_witness :
  fst (run (generate_features Samples.cut_chars Samples.exact
              (py "今日新闻") Samples.broken_models))
  = Ok (zeros 204)
  /\ main_application Samples.cut_chars Samples.exact
       (py "今日新闻") Samples.broken_models
     = (Verdict (Real (0.5 / (0.5 + 0.5))),
        [Normalizer; Vectorizer; Classifier; Calibrator]).
Proof.
  split.
  - apply (vectorizer_failure_degrades_to_zeros Samples.cut_chars Samples.exact
             (py "今日新闻") Samples.broken_models VectorizerError).
    reflexivity.
  - reflexivity.
Defined.

(* ================================================================== *)
(** ** The normalizer *)

Section CharClasses.

Lemma clean_is_word c : is_clean_char c = true -> is_word_char c = true.
Proof. intros H. char_arith. Qed.

Lemma word_visible c : is_word_char c = true -> visible c.
Proof. intros H. unfold visible. char_false. Qed.

Lemma clean_visible c : is_clean_char c = true -> visible c.
Proof. intros H. apply word_visible, clean_is_word, H. Qed.

Lemma lower_char_upper c :
  ((0x41 <=? c) && (c <=? 0x5A))%N = true ->
  is_clean_char (c + 0x20)%N = true
  /\ is_space c = false /\ is_space (c + 0x20)%N = false.
Proof.
  intros H. split; [char_arith|]. split; char_false.
Qed.

Lemma lower_char_clean c : is_clean_char c = true -> lower_char c = c.
Proof.
  intros H. unfold lower_char.
  destruct ((0x41 <=? c) && (c <=? 0x5A))%N eqn:E; [|reflexivity].
  exfalso. char_arith.
Qed.

Lemma lower_char_word c :
  is_word_char c = true -> is_clean_char (lower_char c) = true.
Proof.
  intros H. unfold lower_char.
  destruct ((0x41 <=? c) && (c <=? 0x5A))%N eqn:E.
  - now apply lower_char_upper.
  - apply andb_false_iff in E.
    rewrite !N.leb_gt in E. char_arith.
Qed.

Lemma is_space_lower_char c : is_space (lower_char c) = is_space c.
Proof.
  unfold lower_char.
  destruct ((0x41 <=? c) && (c <=? 0x5A))%N eqn:E; [|reflexivity].
  destruct (lower_char_upper c E) as (_ & -> & ->). reflexivity.
Qed.

Lemma is_space_SPACE : is_space SPACE = true.
Proof. reflexivity. Qed.

Lemma clean_or_space_is_space c :
  clean_or_space c -> is_space c = true -> c = SPACE.
Proof.
  intros [H| ->] Hs; [|reflexivity].
  apply clean_visible in H. unfold visible in H. congruence.
Qed.

End CharClasses.

Section Spaces.

Lemma no_double_space_visible c s :
  visible c -> no_double_space (c :: s) = no_double_space s.
Proof.
  unfold visible. intros H. cbn [no_double_space]. rewrite H.
  destruct s; reflexivity.
Qed.

Lemma no_double_space_tail c s :
  no_double_space (c :: s) = true -> no_double_space s = true.
Proof.
  cbn [no_double_space]. intros H. now apply andb_prop in H.
Qed.

Lemma no_double_space_space s :
  head_visible s -> no_double_space (SPACE :: s) = no_double_space s.
Proof.
  destruct s as [|c s]; [reflexivity|].
  unfold head_visible, visible. intros H.
  change (no_double_space (SPACE :: c :: s))
    with (negb (is_space SPACE && is_space c) && no_double_space (c :: s)).
  rewrite H, andb_false_r. reflexivity.
Qed.

Lemma no_double_space_app_l a b :
  no_double_space (a ++ b) = true -> no_double_space a = true.
Proof.
  induction a as [|c a IH]; [reflexivity|].
  intros H. pose proof (no_double_space_tail _ _ H) as Ht.
  specialize (IH Ht).
  destruct a as [|c' a]; [reflexivity|].
  cbn [app no_double_space] in H |- *.
  apply andb_prop in H as [H _]. cbn [no_double_space] in IH.
  now rewrite H, IH.
Qed.

Lemma no_double_space_app_r a b :
  no_double_space (a ++ b) = true -> no_double_space b = true.
Proof.
  induction a as [|c a IH]; [trivial|].
  intros H. apply IH. exact (no_double_space_tail _ _ H).
Qed.

Lemma no_double_space_app_visible a b :
  Forall visible a -> no_double_space (a ++ b) = no_double_space b.
Proof.
  induction 1 as [|c a Hc _ IH]; [reflexivity|].
  cbn [app]. now rewrite no_double_space_visible.
Qed.

(** [lstrip] keeps a suffix, [rstrip] a prefix. *)
Lemma lstrip_suffix s : exists t, s = t ++ lstrip s.
Proof.
  induction s as [|c s [t IH]]; [now exists []|].
  cbn [lstrip]. destruct (is_space c).
  - exists (c :: t). cbn [app]. now f_equal.
  - now exists [].
Qed.

Lemma rstrip_prefix s : exists t, s = rstrip s ++ t.
Proof.
  induction s as [|c s [t IH]]; [now exists []|].
  cbn [rstrip]. destruct (rstrip s) as [|d r] eqn:E.
  - destruct (is_space c).
    + now exists (c :: s).
    + exists s. reflexivity.
  - exists t. cbn [app]. now f_equal.
Qed.

Lemma lstrip_head_visible s : head_visible (lstrip s).
Proof.
  induction s as [|c s IH]; [exact I|].
  cbn [lstrip]. destruct (is_space c) eqn:E; [exact IH|exact E].
Qed.

Lemma lstrip_fixed s : head_visible s -> lstrip s = s.
Proof.
  destruct s as [|c s]; [reflexivity|].
  unfold head_visible, visible. cbn [lstrip]. now intros ->.
Qed.

Lemma rstrip_head_visible s : head_visible s -> head_visible (rstrip s).
Proof.
  destruct s as [|c s]; [trivial|].
  unfold head_visible, visible. intros H. cbn [rstrip].
  destruct (rstrip s); [now rewrite H|exact H].
Qed.

Lemma rstrip_idempotent s : rstrip (rstrip s) = rstrip s.
Proof.
  induction s as [|c s IH]; [reflexivity|].
  cbn [rstrip]. destruct (rstrip s) as [|d r] eqn:E.
  - destruct (is_space c) eqn:Ec; [reflexivity|].
    cbn [rstrip]. now rewrite Ec.
  - change (rstrip (c :: d :: r))
      with (match rstrip (d :: r) with
            | [] => if is_space c then [] else [c]
            | x :: r' => c :: x :: r'
            end).
    now rewrite IH.
Qed.

Lemma rstrip_visible s : Forall visible s -> rstrip s = s.
Proof.
  induction 1 as [|c s Hc _ IH]; [reflexivity|].
  cbn [rstrip]. rewrite IH. destruct s; [|reflexivity].
  unfold visible in Hc. now rewrite Hc.
Qed.

Lemma rstrip_app a b : rstrip b <> [] -> rstrip (a ++ b) = a ++ rstrip b.
Proof.
  intros Hb. induction a as [|c a IH]; [reflexivity|].
  cbn [app rstrip]. rewrite IH.
  destruct (a ++ rstrip b) eqn:E; [|reflexivity].
  apply app_eq_nil in E as [_ E]. contradiction.
Qed.

End Spaces.

Section CleanText.

(** The stages of [clean_text], one after the other. *)
Lemma sub_non_word_chars x : Forall word_or_space (sub_non_word x).
Proof.
  unfold sub_non_word. apply Forall_forall. intros c Hc.
  apply in_map_iff in Hc as (b & <- & _).
  destruct (is_word_char b) eqn:E; [now left|now right].
Qed.

Lemma sub_spaces_chars y :
  Forall word_or_space y -> Forall word_or_space (sub_spaces y).
Proof.
  induction 1 as [|c y Hc Hy IH]; [constructor|].
  cbn [sub_spaces]. destruct (is_space c).
  - destruct y as [|c' y']; [repeat constructor; now right|].
    destruct (is_space c'); [exact IH|].
    constructor; [now right|exact IH].
  - constructor; assumption.
Qed.

Lemma sub_spaces_no_double_space y : no_double_space (sub_spaces y) = true.
Proof.
  induction y as [|c y IH]; [reflexivity|].
  cbn [sub_spaces]. destruct (is_space c) eqn:Ec.
  - destruct y as [|c' y']; [reflexivity|].
    destruct (is_space c') eqn:Ec'; [exact IH|].
    rewrite no_double_space_space; [exact IH|].
    cbn [sub_spaces]. rewrite Ec'. exact Ec'.
  - now rewrite no_double_space_visible.
Qed.

Lemma lower_chars z :
  Forall word_or_space z -> Forall clean_or_space (lower z).
Proof.
  unfold lower. induction 1 as [|c z Hc _ IH]; [constructor|].
  cbn [map]. constructor; [|exact IH].
  destruct Hc as [Hc| ->]; [left; now apply lower_char_word|now right].
Qed.

Lemma lower_no_double_space z :
  no_double_space (lower z) = no_double_space z.
Proof.
  unfold lower. induction z as [|c z IH]; [reflexivity|].
  cbn [map no_double_space]. rewrite IH.
  destruct z as [|c' z]; [reflexivity|].
  cbn [map]. now rewrite !is_space_lower_char.
Qed.

Lemma strip_chars (P : codepoint -> Prop) s :
  Forall P s -> Forall P (strip s).
Proof.
  intros H. unfold strip.
  destruct (lstrip_suffix s) as [t Ht].
  destruct (rstrip_prefix (lstrip s)) as [u Hu].
  rewrite Ht, Hu in H.
  apply Forall_app in H as [_ H]. now apply Forall_app in H as [H _].
Qed.

Lemma strip_no_double_space s :
  no_double_space s = true -> no_double_space (strip s) = true.
Proof.
  intros H. unfold strip.
  destruct (lstrip_suffix s) as [t Ht].
  destruct (rstrip_prefix (lstrip s)) as [u Hu].
  rewrite Ht in H. apply no_double_space_app_r in H.
  rewrite Hu in H. now apply no_double_space_app_l in H.
Qed.

(** Every cleaned text is tidy. *)
Lemma clean_text_tidy x : tidy (clean_text x).
Proof.
  unfold clean_text. repeat split.
  - apply strip_chars, lower_chars, sub_spaces_chars, sub_non_word_chars.
  - apply strip_no_double_space.
    rewrite lower_no_double_space. apply sub_spaces_no_double_space.
  - unfold strip. apply rstrip_head_visible, lstrip_head_visible.
  - unfold strip. apply rstrip_idempotent.
Qed.

(** A tidy text is left as it is by every stage. *)
Lemma sub_non_word_fixed s : Forall clean_or_space s -> sub_non_word s = s.
Proof.
  unfold sub_non_word. induction 1 as [|c s Hc _ IH]; [reflexivity|].
  cbn [map]. rewrite IH. f_equal.
  destruct Hc as [Hc| ->]; [|reflexivity].
  now rewrite (clean_is_word _ Hc).
Qed.

Lemma sub_spaces_fixed s :
  Forall clean_or_space s -> no_double_space s = true -> sub_spaces s = s.
Proof.
  induction 1 as [|c s Hc Hs IH]; [reflexivity|].
  intros Hnd. pose proof (no_double_space_tail _ _ Hnd) as Ht.
  cbn [sub_spaces]. rewrite (IH Ht).
  destruct (is_space c) eqn:Ec; [|reflexivity].
  pose proof (clean_or_space_is_space c Hc Ec) as ->.
  destruct s as [|c' s']; [reflexivity|].
  change (no_double_space (SPACE :: c' :: s'))
    with (negb (is_space SPACE && is_space c') && no_double_space (c' :: s'))
    in Hnd.
  rewrite Ec in Hnd.
  destruct (is_space c'); [discriminate Hnd|reflexivity].
Qed.

Lemma lower_fixed s : Forall clean_or_space s -> lower s = s.
Proof.
  unfold lower. induction 1 as [|c s Hc _ IH]; [reflexivity|].
  cbn [map]. rewrite IH. f_equal.
  destruct Hc as [Hc| ->]; [now apply lower_char_clean|reflexivity].
Qed.

Lemma tidy_fixed s : tidy s -> clean_text s = s.
Proof.
  intros (Hc & Hnd & Hh & Hr). unfold clean_text, strip.
  rewrite (sub_non_word_fixed _ Hc), (sub_spaces_fixed _ Hc Hnd),
    (lower_fixed _ Hc), (lstrip_fixed _ Hh).
  exact Hr.
Qed.

Lemma clean_text_idempotent x : clean_text (clean_text x) = clean_text x.
Proof. apply tidy_fixed, clean_text_tidy. Qed.

End CleanText.

Section Tokens.

Lemma clean_token_chars t :
  clean_token t = true ->
  t <> [] /\ Forall (fun c => is_clean_char c = true) t.
Proof.
  destruct t as [|c t]; [discriminate|].
  unfold clean_token. intros H. split; [discriminate|].
  apply Forall_forall. now apply forallb_forall.
Qed.

Lemma clean_token_tidy t : clean_token t = true -> tidy t.
Proof.
  intros H. apply clean_token_chars in H as [Hne Hc].
  assert (Hv : Forall visible t).
  { eapply Forall_impl; [|exact Hc]. apply clean_visible. }
  repeat split.
  - eapply Forall_impl; [|exact Hc]. intros c Hcc. now left.
  - rewrite <- (app_nil_r t). now rewrite no_double_space_app_visible.
  - destruct t as [|c t]; [exact I|]. now inversion Hv.
  - now apply rstrip_visible.
Qed.

Lemma join_not_nil sep p rest : p <> [] -> join sep (p :: rest) <> [].
Proof.
  intros Hp. cbn [join]. destruct rest; [exact Hp|].
  intros H. apply app_eq_nil in H as [H _]. contradiction.
Qed.

(** Clean tokens joined by single spaces make a tidy text. *)
Lemma join_tidy toks :
  forallb clean_token toks = true -> tidy (join [SPACE] toks).
Proof.
  induction toks as [|p rest IH].
  - intros _. repeat split; constructor.
  - cbn [forallb]. intros H. apply andb_prop in H as [Hp Hrest].
    specialize (IH Hrest).
    destruct rest as [|q rest]; [now apply clean_token_tidy|].
    change (join [SPACE] (p :: q :: rest))
      with (p ++ SPACE :: join [SPACE] (q :: rest)).
    set (J := join [SPACE] (q :: rest)) in *.
    assert (HJ : J <> []).
    { apply join_not_nil.
      cbn [forallb] in Hrest. apply andb_prop in Hrest as [Hq _].
      now apply clean_token_chars in Hq. }
    destruct IH as (Jc & Jnd & Jh & Jr).
    pose proof (clean_token_tidy p Hp) as (Pc & _ & Ph & _).
    pose proof (clean_token_chars p Hp) as [Pne Pcl].
    assert (Pv : Forall visible p).
    { eapply Forall_impl; [|exact Pcl]. apply clean_visible. }
    repeat split.
    + apply Forall_app. split; [exact Pc|].
      constructor; [now right|exact Jc].
    + rewrite no_double_space_app_visible by exact Pv.
      now rewrite no_double_space_space.
    + destruct p as [|c p]; [contradiction|exact Ph].
    + change (p ++ SPACE :: J) with (p ++ [SPACE] ++ J).
      rewrite app_assoc, rstrip_app; rewrite Jr; [reflexivity|exact HJ].
Qed.

End Tokens.

Section WordsOf.

Lemma words_cons c t :
  words (c :: t)
  = if is_space c then words t
    else if head_space t then [c] :: words t
    else match words t with
         | w :: ws => (c :: w) :: ws
         | [] => [[c]]
         end.
Proof. destruct t; reflexivity. Qed.

Lemma words_head_visible t : head_space t = false -> words t <> [].
Proof.
  destruct t as [|d t]; [discriminate|].
  cbn [head_space]. intros H. rewrite words_cons, H.
  destruct (head_space t); [discriminate|].
  destruct (words t); discriminate.
Qed.

Lemma words_spaces t : Forall (fun c => is_space c = true) t -> words t = [].
Proof.
  induction 1 as [|c t Hc _ IH]; [reflexivity|].
  now rewrite words_cons, Hc.
Qed.

Lemma head_space_app a sp b :
  is_space sp = true -> head_space (a ++ sp :: b) = head_space a.
Proof. intros H. destruct a; [exact H|reflexivity]. Qed.

(** A whitespace character between two texts separates their words. *)
Lemma words_app_sep a sp b :
  is_space sp = true -> words (a ++ sp :: b) = words a ++ words b.
Proof.
  intros Hsp. induction a as [|c a IH].
  - cbn [app]. now rewrite words_cons, Hsp.
  - cbn [app]. rewrite !words_cons, (head_space_app a sp b Hsp), IH.
    destruct (is_space c); [reflexivity|].
    destruct (head_space a) eqn:Ha; [reflexivity|].
    pose proof (words_head_visible a Ha) as Hne.
    destruct (words a); [contradiction|reflexivity].
Qed.

Lemma words_app_spaces a t :
  Forall (fun c => is_space c = true) t -> words (a ++ t) = words a.
Proof.
  intros Ht. destruct Ht as [|sp t Hsp Ht].
  - now rewrite app_nil_r.
  - now rewrite (words_app_sep a sp t Hsp), (words_spaces t Ht), app_nil_r.
Qed.

(** The words of a space-joined list are the words of its members. *)
Lemma words_join toks :
  words (join [SPACE] toks) = List.concat (map words toks).
Proof.
  induction toks as [|p rest IH]; [reflexivity|].
  destruct rest as [|q rest].
  - cbn [join map List.concat]. now rewrite app_nil_r.
  - change (join [SPACE] (p :: q :: rest))
      with (p ++ SPACE :: join [SPACE] (q :: rest)).
    rewrite (words_app_sep p SPACE _ is_space_SPACE), IH. reflexivity.
Qed.

Lemma join_cons_cons sep p q rest :
  join sep (p :: q :: rest) = p ++ sep ++ join sep (q :: rest).
Proof. reflexivity. Qed.

Lemma join_cons_head sep c w ws :
  join sep ((c :: w) :: ws) = c :: join sep (w :: ws).
Proof. destruct ws; reflexivity. Qed.

Lemma rstrip_cons_fixed c s :
  rstrip (c :: s) = c :: s ->
  rstrip s = s /\ (s = [] -> is_space c = false).
Proof.
  cbn [rstrip]. destruct (rstrip s) as [|d r] eqn:E.
  - destruct (is_space c); [discriminate|].
    intros [= <-]. split; [reflexivity|reflexivity].
  - intros [= <-]. split; [reflexivity|discriminate].
Qed.

(** A text with single spaces and no space at its end is its words joined
    by spaces, up to a space at its start. *)
Lemma join_words_lstrip s :
  Forall (fun c => is_space c = true -> c = SPACE) s ->
  no_double_space s = true ->
  rstrip s = s ->
  join [SPACE] (words s) = lstrip s.
Proof.
  induction 1 as [|c s Hc Hs IH]; [reflexivity|].
  intros Hnd Hr.
  destruct (rstrip_cons_fixed c s Hr) as [Hr' Hlast].
  pose proof (no_double_space_tail _ _ Hnd) as Hnd'.
  specialize (IH Hnd' Hr').
  rewrite words_cons. cbn [lstrip].
  destruct (is_space c) eqn:Ec; [exact IH|].
  destruct s as [|d s']; [reflexivity|].
  cbn [head_space]. destruct (is_space d) eqn:Ed.
  - assert (Hd : d = SPACE) by (apply (Forall_inv Hs); exact Ed).
    subst d.
    destruct (rstrip_cons_fixed SPACE s' Hr') as [_ Hlast'].
    destruct s' as [|e s'']; [specialize (Hlast' eq_refl); discriminate|].
    assert (Ee : is_space e = false).
    { change (no_double_space (SPACE :: e :: s''))
        with (negb (is_space SPACE && is_space e)
              && no_double_space (e :: s'')) in Hnd'.
      rewrite Ed in Hnd'. destruct (is_space e); [discriminate|reflexivity]. }
    cbn [lstrip] in IH. rewrite Ed, Ee in IH.
    rewrite words_cons, Ed in IH |- *.
    assert (Hne : words (e :: s'') <> [])
      by (apply words_head_visible; exact Ee).
    destruct (words (e :: s'')) as [|w ws]; [contradiction|].
    now rewrite join_cons_cons, IH.
  - cbn [lstrip] in IH. rewrite Ed in IH.
    assert (Hne : words (d :: s') <> [])
      by (apply words_head_visible; exact Ed).
    destruct (words (d :: s')) as [|w ws]; [contradiction|].
    rewrite join_cons_head. now f_equal.
Qed.

Lemma tidy_join_words s : tidy s -> join [SPACE] (words s) = s.
Proof.
  intros (Hc & Hnd & Hh & Hr).
  rewrite join_words_lstrip; [now apply lstrip_fixed|..|exact Hnd|exact Hr].
  eapply Forall_impl; [|exact Hc].
  intros c Hcc Hsp. now apply clean_or_space_is_space.
Qed.

(** Two tidy texts with the same words are the same text. *)
Lemma tidy_words_eq a b : tidy a -> tidy b -> words a = words b -> a = b.
Proof.
  intros Ha Hb H.
  now rewrite <- (tidy_join_words a Ha), <- (tidy_join_words b Hb), H.
Qed.

(** The stages of the cleaning keep the words, of a text made of clean
    characters and whitespace. *)
Lemma words_lstrip s : words (lstrip s) = words s.
Proof.
  induction s as [|c s IH]; [reflexivity|].
  cbn [lstrip]. destruct (is_space c) eqn:E; [|reflexivity].
  now rewrite words_cons, E.
Qed.

Lemma rstrip_prefix_spaces s :
  exists t, s = rstrip s ++ t /\ Forall (fun c => is_space c = true) t.
Proof.
  induction s as [|c s (t & IH & Ht)]; [exists []; split; [reflexivity|constructor]|].
  cbn [rstrip]. destruct (rstrip s) as [|d r] eqn:E.
  - cbn [app] in IH. subst t. destruct (is_space c) eqn:Ec.
    + exists (c :: s). split; [reflexivity|]. now constructor.
    + exists s. split; [reflexivity|exact Ht].
  - exists t. split; [|exact Ht]. cbn [app]. now f_equal.
Qed.

Lemma words_rstrip s : words (rstrip s) = words s.
Proof.
  destruct (rstrip_prefix_spaces s) as (t & Hs & Ht).
  rewrite Hs at 2. now rewrite words_app_spaces.
Qed.

Lemma words_strip s : words (strip s) = words s.
Proof. unfold strip. now rewrite words_rstrip, words_lstrip. Qed.

Lemma words_congr c t1 t2 :
  head_space t1 = head_space t2 -> words t1 = words t2 ->
  words (c :: t1) = words (c :: t2).
Proof. intros Hh Hw. now rewrite !words_cons, Hh, Hw. Qed.

Lemma head_space_sub_spaces y : head_space (sub_spaces y) = head_space y.
Proof.
  induction y as [|c y IH]; [reflexivity|].
  cbn [sub_spaces]. cbn [head_space] in *.
  destruct (is_space c) eqn:Ec; [|exact Ec].
  destruct y as [|c' y']; [reflexivity|].
  destruct (is_space c') eqn:Ec'; [|reflexivity].
  rewrite IH. exact Ec'.
Qed.

Lemma words_sub_spaces y : words (sub_spaces y) = words y.
Proof.
  induction y as [|c y IH]; [reflexivity|].
  cbn [sub_spaces]. destruct (is_space c) eqn:Ec.
  - rewrite (words_cons c y), Ec.
    destruct y as [|c' y']; [reflexivity|].
    destruct (is_space c'); [exact IH|].
    now rewrite words_cons, is_space_SPACE.
  - apply words_congr; [apply head_space_sub_spaces|exact IH].
Qed.

(** A map that keeps whitespace as whitespace and leaves every other
    character in place keeps the words. *)
Lemma words_map_fixed (f : codepoint -> codepoint) y :
  Forall (fun c => if is_space c then is_space (f c) = true else f c = c) y ->
  words (map f y) = words y.
Proof.
  induction 1 as [|c y Hc Hy IH]; [reflexivity|].
  cbn [map]. rewrite !words_cons, IH.
  assert (Hh : head_space (map f y) = head_space y).
  { destruct Hy as [|d y' Hd _]; [reflexivity|].
    cbn [map head_space]. destruct (is_space d) eqn:Ed; [exact Hd|].
    now rewrite Hd. }
  rewrite Hh. destruct (is_space c) eqn:Ec.
  - now rewrite Hc.
  - now rewrite Hc, Ec.
Qed.

(** The characters of the words are the characters of the text that are
    not whitespace. *)
Lemma words_chars (P : codepoint -> Prop) y :
  Forall (fun c => is_space c = true \/ P c) y ->
  Forall (Forall P) (words y).
Proof.
  induction 1 as [|c y Hc _ IH]; [constructor|].
  rewrite words_cons. destruct (is_space c) eqn:Ec; [exact IH|].
  assert (Pc : P c) by (destruct Hc; [discriminate|assumption]).
  destruct (head_space y).
  - constructor; [now repeat constructor|exact IH].
  - destruct (words y) as [|w ws]; [now repeat constructor|].
    inversion IH; subst. constructor; [now constructor|assumption].
Qed.

Lemma words_chars_of (P : codepoint -> Prop) y :
  Forall (Forall P) (words y) ->
  Forall (fun c => is_space c = true \/ P c) y.
Proof.
  induction y as [|c y IH]; [constructor|].
  rewrite words_cons. destruct (is_space c) eqn:Ec.
  - intros H. constructor; [now left|now apply IH].
  - destruct (head_space y).
    + intros H. inversion H as [|? ? Hw Hws]; subst.
      constructor; [right; now inversion Hw|now apply IH].
    + destruct (words y) as [|w ws].
      * intros H. inversion H as [|? ? Hw _]; subst.
        constructor; [right; now inversion Hw|apply IH; constructor].
      * intros H. inversion H as [|? ? Hw Hws]; subst.
        inversion Hw; subst.
        constructor; [now right|apply IH; now constructor].
Qed.

(** The cleaning keeps the words of a text whose characters are clean or
    whitespace. *)
Lemma words_clean_text y :
  Forall (fun c => is_space c = true \/ is_clean_char c = true) y ->
  words (clean_text y) = words y.
Proof.
  intros Hy. unfold clean_text.
  rewrite words_strip.
  assert (H1 : words (sub_non_word y) = words y).
  { unfold sub_non_word. apply words_map_fixed.
    eapply Forall_impl; [|exact Hy].
    intros c [Hc|Hc].
    - rewrite Hc. destruct (is_word_char c); [exact Hc|reflexivity].
    - rewrite (clean_visible c Hc), (clean_is_word c Hc). reflexivity. }
  assert (H2 : Forall clean_or_space (sub_spaces (sub_non_word y))).
  { assert (H : Forall clean_or_space (sub_non_word y)).
    { unfold sub_non_word. apply Forall_forall. intros c Hc.
      apply in_map_iff in Hc as (b & <- & Hb).
      rewrite Forall_forall in Hy. destruct (Hy b Hb) as [Hs|Hcl].
      - destruct (is_word_char b) eqn:Ew; [|now right].
        apply word_visible in Ew. unfold visible in Ew. congruence.
      - rewrite (clean_is_word b Hcl). now left. }
    revert H. generalize (sub_non_word y). intros z.
    induction 1 as [|c z Hc Hz IH]; [constructor|].
    cbn [sub_spaces]. destruct (is_space c).
    - destruct z as [|c' z']; [repeat constructor; now right|].
      destruct (is_space c'); [exact IH|].
      constructor; [now right|exact IH].
    - constructor; assumption. }
  unfold lower. rewrite words_map_fixed; [now rewrite words_sub_spaces|].
  eapply Forall_impl; [|exact H2].
  intros c [Hc| ->].
  - rewrite (clean_visible c Hc). now apply lower_char_clean.
  - reflexivity.
Qed.

End WordsOf.

Section Recut.

(** Cleaning the space-joined tokens of a tidy text gives the text back,
    when the tokens cut it at whitespace only. *)
Lemma clean_text_of_cut tokens s :
  tidy s -> cuts_at_spaces tokens s ->
  clean_text (join [SPACE] tokens) = s.
Proof.
  intros Hs Hcut. unfold cuts_at_spaces in Hcut.
  assert (Hw : words (join [SPACE] tokens) = words s)
    by now rewrite words_join.
  apply tidy_words_eq; [apply clean_text_tidy|exact Hs|].
  rewrite <- Hw. apply words_clean_text.
  apply words_chars_of. rewrite Hw. apply words_chars.
  destruct Hs as (Hc & _). eapply Forall_impl; [|exact Hc].
  intros c [H| ->]; [now right|left; reflexivity].
Qed.

End Recut.

(** C6, as the code has it: the cleaning that precedes the tokenizer
    (substitutions, lowercasing, strip) is idempotent on every string; the
    whole of [preprocess_text] is idempotent at every string whose cleaned
    text the tokenizer cuts at whitespace only (whether it yields the
    whitespace as tokens or drops it), and also at a string whose tokens
    are non-empty runs of clean characters that are found again when their
    space-joined text is tokenized. *)
Theorem preprocess_text_idempotent_when_cut_at_spaces
  (jieba_cut : pystr -> list pystr) (x : pystr) :
  clean_text (clean_text x) = clean_text x
  /\ (cuts_at_spaces (jieba_cut (clean_text x)) (clean_text x) ->
      preprocess_text jieba_cut (preprocess_text jieba_cut x)
      = preprocess_text jieba_cut x)
  /\ (forallb clean_token (jieba_cut (clean_text x)) = true ->
      jieba_cut (join (py " ") (jieba_cut (clean_text x)))
      = jieba_cut (clean_text x) ->
      preprocess_text jieba_cut (preprocess_text jieba_cut x)
      = preprocess_text jieba_cut x).
Proof.
  split; [apply clean_text_idempotent|]. split.
  - intros Hcut.
    destruct x as [|c x]; [reflexivity|].
    cbn [preprocess_text]. change (py " ") with [SPACE].
    pose proof (clean_text_of_cut _ _ (clean_text_tidy (c :: x)) Hcut) as Hfix.
    destruct (join [SPACE] (jieba_cut (clean_text (c :: x)))) as [|d s] eqn:E;
      [reflexivity|].
    cbn [preprocess_text]. change (py " ") with [SPACE].
    now rewrite Hfix, E.
  - intros Htok Hcut.
    destruct x as [|c x]; [reflexivity|].
    cbn [preprocess_text].
    set (toks := jieba_cut (clean_text (c :: x))) in *.
    change (py " ") with [SPACE] in *.
    pose proof (tidy_fixed _ (join_tidy toks Htok)) as Hfix.
    destruct (join [SPACE] toks) as [|d s] eqn:E; [reflexivity|].
    cbn [preprocess_text]. change (py " ") with [SPACE].
    now rewrite Hfix, Hcut.
Qed.

(** With a tokenizer that yields the separators, " Fake  news! " is
    normalised to fake, three spaces, news, which is a fixed point. *)
Lemma preprocess_text_idempotent_when_cut_at_spaces_witness :
  preprocess_text Samples.cut_at_whitespace (py " Fake  news! ")
  = py "fake   news"
  /\ preprocess_text Samples.cut_at_whitespace
       (preprocess_text Samples.cut_at_whitespace (py " Fake  news! "))
     = preprocess_text Samples.cut_at_whitespace (py " Fake  news! ").
Proof.
  split; [vm_compute; reflexivity|].
  apply (proj1 (proj2 (preprocess_text_idempotent_when_cut_at_spaces
                         Samples.cut_at_whitespace (py " Fake  news! ")))).
  vm_compute. reflexivity.
Defined.

(** C6 as stated fails: with a tokenizer that yields the separators as
    tokens, 我a is normalised to "我 a" and that, in turn, to "我   a". *)
Lemma preprocess_text_not_idempotent :
  preprocess_text Samples.cut_chars (py "我a") = py "我 a"
  /\ preprocess_text Samples.cut_chars (py "我 a") = py "我   a"
  /\ preprocess_text Samples.cut_chars
       (preprocess_text Samples.cut_chars (py "我a"))
     <> preprocess_text Samples.cut_chars (py "我a").
Proof.
  split; [vm_compute; reflexivity|].
  split; [vm_compute; reflexivity|].
  vm_compute. discriminate.
Qed.

(* ================================================================== *)
(** ** Further properties: substring tests and the gate *)

Section Substrings.

Lemma starts_with_spec sub text :
  starts_with sub text = true <-> exists rest, text = sub ++ rest.
Proof.
  revert text. induction sub as [|a sub IH]; intros text.
  - split; [intros _; now exists text|reflexivity].
  - destruct text as [|b text]; cbn [starts_with].
    + split; [discriminate|intros [rest H]; discriminate H].
    + rewrite andb_true_iff, N.eqb_eq, IH. split.
      * intros [-> [rest ->]]. now exists rest.
      * intros [rest H]. injection H as -> ->. split; [reflexivity|now exists rest].
Qed.

Lemma contains_unfold sub text :
  contains sub text
  = starts_with sub text
    || match text with
       | [] => false
       | _ :: text' => contains sub text'
       end.
Proof. destruct text; reflexivity. Qed.

(** [sub in text] holds exactly when [text] is [sub] between two texts. *)
Lemma contains_spec sub text :
  contains sub text = true
  <-> exists before after, text = before ++ sub ++ after.
Proof.
  split.
  - induction text as [|c text IH]; rewrite contains_unfold; intros H;
      apply orb_prop in H as [H|H].
    + apply starts_with_spec in H as [rest H]. now exists [], rest.
    + discriminate H.
    + apply starts_with_spec in H as [rest H]. now exists [], rest.
    + destruct (IH H) as (before & after & ->). now exists (c :: before), after.
  - intros (before & after & ->).
    induction before as [|c before IH]; rewrite contains_unfold.
    + apply orb_true_iff. left. apply starts_with_spec. now exists after.
    + apply orb_true_iff. right. exact IH.
Qed.

Lemma contains_context sub before text after :
  contains sub text = true -> contains sub (before ++ text ++ after) = true.
Proof.
  intros H. apply contains_spec in H as (a & b & ->).
  apply contains_spec. exists (before ++ a), (b ++ after).
  now rewrite <- !app_assoc.
Qed.

Lemma any_in_context phrases before text after :
  any_in phrases text = true ->
  any_in phrases (before ++ text ++ after) = true.
Proof.
  intros H. apply any_in_exists in H as (p & Hp & Hc).
  apply any_in_exists. exists p. split; [exact Hp|].
  now apply contains_context.
Qed.

Lemma flag_one b : flag b = PyFloat 1.0 <-> b = true.
Proof. destruct b; split; intros H; try reflexivity; discriminate H. Qed.

(** The flag entries, each with the phrase list behind it. *)
Lemma flag_entries key :
  In key flag_fields ->
  exists phrases,
    forall t, getitem (extract_text_features t) key = Ok (flag (any_in phrases t)).
Proof.
  unfold flag_fields. intros H.
  repeat (destruct H as [<-|H]; [eexists; intros t; reflexivity|]).
  destruct H.
Qed.

End Substrings.

(** X1: the gate answers [True] exactly for the texts that hold one of its
    five phrases as a substring, and answers [(False, "")] for every other
    text. *)
Theorem gate_matches_exactly_substrings (text : pystr) :
  (fst (absurd_content_detector text) = true
   <-> exists phrase before after,
         In phrase absurd_phrases /\ text = before ++ phrase ++ after)
  /\ (fst (absurd_content_detector text) = false
      <-> absurd_content_detector text = (false, py "")).
Proof.
  unfold absurd_content_detector. rewrite detector_loop_fst. split.
  - rewrite any_in_exists. split.
    + intros (p & Hp & Hc). apply contains_spec in Hc as (a & b & ->).
      now exists p, a, b.
    + intros (p & a & b & Hp & ->). exists p. split; [exact Hp|].
      apply contains_spec. now exists a, b.
  - split.
    + apply detector_loop_none.
    + intros H. rewrite <- detector_loop_fst, H. reflexivity.
Qed.

(** X2: putting a text inside a longer one cannot switch a signal off: if
    the gate matches a text, it matches every text that contains it, and a
    heuristic flag that is 1.0 for a text is 1.0 for every text that
    contains it. *)
Theorem signals_survive_context (before text after : pystr) :
  (fst (absurd_content_detector text) = true ->
   fst (absurd_content_detector (before ++ text ++ after)) = true)
  /\ (forall key,
        In key flag_fields ->
        getitem (extract_text_features text) key = Ok (PyFloat 1.0) ->
        getitem (extract_text_features (before ++ text ++ after)) key
        = Ok (PyFloat 1.0)).
Proof.
  split.
  - unfold absurd_content_detector. rewrite !detector_loop_fst.
    apply any_in_context.
  - intros key Hkey. destruct (flag_entries key Hkey) as [phrases Hf].
    rewrite !Hf. intros H.
    assert (H1 : flag (any_in phrases text) = PyFloat 1.0) by congruence.
    apply flag_one in H1.
    f_equal. apply flag_one. now apply any_in_context.
Qed.

Lemma signals_survive_context_witness :
  fst (absurd_content_detector (py "据说" ++ py "长生不老" ++ py "药已问世")) = true.
Proof.
  apply (proj1 (signals_survive_context (py "据说") (py "长生不老") (py "药已问世"))).
  vm_compute. reflexivity.
Defined.

(** X3: when the gate matches, the phrase that the report sets in bold,
    [reason.split(':')[-1]], is the matched phrase preceded by one space. *)
Theorem highlighted_phrase_is_match (text : pystr) :
  fst (absurd_content_detector text) = true ->
  exists phrase,
    In phrase absurd_phrases
    /\ contains phrase text = true
    /\ snd (absurd_content_detector text) = reason_prefix ++ phrase
    /\ highlighted_phrase (snd (absurd_content_detector text))
       = SPACE :: phrase.
Proof.
  unfold absurd_content_detector. rewrite detector_loop_fst. intros H.
  destruct (detector_loop_first _ _ H) as (pre & p & post & Hl & Hp & _ & ->).
  assert (Hin : In p absurd_phrases) by (rewrite Hl; apply in_elt).
  exists p. repeat split; auto. cbn [snd].
  unfold absurd_phrases in Hin.
  repeat (destruct Hin as [<-|Hin]; [vm_compute; reflexivity|]).
  destruct Hin.
Qed.

Lemma highlighted_phrase_is_match_witness :
  exists phrase,
    In phrase absurd_phrases
    /\ contains phrase (py "科学家称：太阳消失，地球即将停转！") = true
    /\ snd (absurd_content_detector (py "科学家称：太阳消失，地球即将停转！"))
       = reason_prefix ++ phrase
    /\ highlighted_phrase
         (snd (absurd_content_detector (py "科学家称：太阳消失，地球即将停转！")))
       = SPACE :: phrase.
Proof.
  apply (highlighted_phrase_is_match (py "科学家称：太阳消失，地球即将停转！")).
  vm_compute. reflexivity.
Defined.

(* ================================================================== *)
(** ** Further properties: the normalizer *)

Section WordContent.

Lemma is_visible_lower_char c : is_visible (lower_char c) = is_visible c.
Proof. unfold is_visible. now rewrite is_space_lower_char. Qed.

Lemma visible_sub_non_word x :
  filter is_visible (sub_non_word x) = filter is_word_char x.
Proof.
  unfold sub_non_word. induction x as [|c x IH]; [reflexivity|].
  cbn [map filter]. rewrite IH.
  destruct (is_word_char c) eqn:E; [|reflexivity].
  unfold is_visible. now rewrite (word_visible c E).
Qed.

Lemma visible_sub_spaces y :
  filter is_visible (sub_spaces y) = filter is_visible y.
Proof.
  induction y as [|c y IH]; [reflexivity|].
  cbn [sub_spaces]. destruct (is_space c) eqn:Ec.
  - assert (Hc : is_visible c = false) by (unfold is_visible; now rewrite Ec).
    cbn [filter]. rewrite Hc.
    destruct y as [|c' y']; [reflexivity|].
    destruct (is_space c'); [exact IH|].
    cbn [filter] in IH |- *. exact IH.
  - cbn [filter]. now rewrite IH.
Qed.

Lemma visible_lower z :
  filter is_visible (lower z) = lower (filter is_visible z).
Proof.
  unfold lower. induction z as [|c z IH]; [reflexivity|].
  cbn [map filter]. rewrite is_visible_lower_char, IH.
  destruct (is_visible c); reflexivity.
Qed.

Lemma visible_lstrip s : filter is_visible (lstrip s) = filter is_visible s.
Proof.
  induction s as [|c s IH]; [reflexivity|].
  cbn [lstrip]. destruct (is_space c) eqn:Ec; [|reflexivity].
  cbn [filter]. unfold is_visible at 2. now rewrite Ec.
Qed.

Lemma visible_rstrip s : filter is_visible (rstrip s) = filter is_visible s.
Proof.
  induction s as [|c s IH]; [reflexivity|].
  cbn [rstrip]. destruct (rstrip s) as [|d r].
  - cbn [filter] in IH |- *. rewrite <- IH.
    unfold is_visible. destruct (is_space c) eqn:Ec; cbn [filter negb];
      rewrite ?Ec; reflexivity.
  - cbn [filter] in IH |- *. now rewrite IH.
Qed.

Lemma filter_nil_iff (f : codepoint -> bool) s :
  filter f s = [] <-> forallb (fun c => negb (f c)) s = true.
Proof.
  induction s as [|c s IH]; [tauto|].
  cbn [filter forallb]. destruct (f c); cbn [negb andb]; [|exact IH].
  split; discriminate.
Qed.

End WordContent.

(** X4: the text handed to the tokenizer is made of CJK ideographs, lower
    case ASCII letters, digits and single spaces only, with no space at
    either end, whatever the input. *)
Theorem clean_text_shape (x : pystr) :
  Forall clean_or_space (clean_text x)
  /\ no_double_space (clean_text x) = true
  /\ strip (clean_text x) = clean_text x.
Proof.
  destruct (clean_text_tidy x) as (Hc & Hnd & Hh & Hr).
  repeat split; [exact Hc|exact Hnd|].
  unfold strip at 1. now rewrite (lstrip_fixed _ Hh).
Qed.

Lemma visible_clean_text x :
  filter is_visible (clean_text x) = lower (filter is_word_char x).
Proof.
  unfold clean_text, strip.
  now rewrite visible_rstrip, visible_lstrip, visible_lower,
    visible_sub_spaces, visible_sub_non_word.
Qed.

Lemma sub_spaces_length y : (List.length (sub_spaces y) <= List.length y)%nat.
Proof.
  induction y as [|c y IH]; [apply le_n|].
  cbn [sub_spaces]. destruct (is_space c).
  - destruct y as [|c' y']; [apply le_n|].
    destruct (is_space c'); cbn [List.length] in *; lia.
  - cbn [List.length]. lia.
Qed.

Lemma strip_length s : (List.length (strip s) <= List.length s)%nat.
Proof.
  unfold strip.
  destruct (lstrip_suffix s) as [t Ht].
  destruct (rstrip_prefix (lstrip s)) as [u Hu].
  rewrite Ht at 2. rewrite Hu at 2. rewrite !length_app. lia.
Qed.

(** X5: cleaning keeps the word characters of the input, all of them and
    in their order, lowercased; everything else only becomes spaces or is
    dropped: the characters of the cleaned text that are not whitespace are
    the lowercased word characters of the input, every other character of
    it is a space, and the cleaned text is never longer than the input. *)
Theorem clean_text_keeps_words (x : pystr) :
  filter is_visible (clean_text x) = lower (filter is_word_char x)
  /\ Forall (fun c => is_visible c = true \/ c = SPACE) (clean_text x)
  /\ (List.length (clean_text x) <= List.length x)%nat.
Proof.
  split; [apply visible_clean_text|]. split.
  - destruct (clean_text_tidy x) as (Hc & _).
    eapply Forall_impl; [|exact Hc].
    intros c [H|H]; [left|now right].
    unfold is_visible. now rewrite (clean_visible c H).
  - unfold clean_text.
    pose proof (strip_length (lower (sub_spaces (sub_non_word x)))) as H1.
    pose proof (sub_spaces_length (sub_non_word x)) as H2.
    unfold lower, sub_non_word in *. rewrite !length_map in *. lia.
Qed.

(** X6: the tokenizer gets the empty text exactly when the input has no
    word character (no CJK ideograph, ASCII letter or digit). *)
Theorem clean_text_empty_iff (x : pystr) :
  clean_text x = []
  <-> forallb (fun c => negb (is_word_char c)) x = true.
Proof.
  rewrite <- filter_nil_iff. split.
  - intros H. pose proof (visible_clean_text x) as Hk.
    rewrite H in Hk. cbn [filter] in Hk. unfold lower in Hk.
    symmetry in Hk. now apply map_eq_nil in Hk.
  - intros H. pose proof (visible_clean_text x) as Hk.
    rewrite H in Hk. cbn in Hk.
    destruct (clean_text_tidy x) as (_ & _ & Hh & _).
    destruct (clean_text x) as [|c s]; [reflexivity|].
    cbn [head_visible] in Hh. unfold visible in Hh.
    cbn [filter] in Hk. unfold is_visible in Hk at 1.
    rewrite Hh in Hk. discriminate Hk.
Qed.

(* ================================================================== *)
(** ** Further properties: the assembled vector *)

Section Content.

Variable jieba_cut : pystr -> list pystr.
Variable float32 : Q -> Q.

Lemma heuristic_values_length text : List.length (heuristic_values text) = 6%nat.
Proof. reflexivity. Qed.

(** The comprehension over the sorted keys yields the six values in
    alphabetical key order. *)
Lemma adv_vector_values text :
  comprehension
    (fun key => match getitem (extract_text_features text) key with
                | Ok v => Ok (float v)
                | Raise e => Raise e
                end)
    (sorted (extract_text_features text)) = Ok (heuristic_values text).
Proof. reflexivity. Qed.

Lemma generate_features_ok text m tfidf_vector :
  tfidf m (preprocess_text jieba_cut text) = Ok tfidf_vector ->
  run (generate_features jieba_cut float32 text m)
  = (Ok (map float32
           (firstn (expected_dim m) (tfidf_vector ++ heuristic_values text))),
     [Normalizer; Vectorizer]).
Proof.
  intros H. unfold generate_features. unfold_pipeline.
  now rewrite H, adv_vector_values.
Qed.

End Content.

(** X7: when the vectorizer answers with a row, the assembled vector is
    that row followed by the six heuristic values in alphabetical key order
    (exaggeration, is_absurd, length, reliable, sentences, urgent), cut to
    [expected_dim] entries and cast.  So a row of at most
    [expected_dim - 6] entries is kept whole with all six values, and with a
    row of [expected_dim] entries or more no heuristic value reaches the
    classifier. *)
Theorem assembled_vector_content
  (jieba_cut : pystr -> list pystr) (float32 : Q -> Q)
  (text : pystr) (m : models) (tfidf_vector : list Q) :
  tfidf m (preprocess_text jieba_cut text) = Ok tfidf_vector ->
  exists features,
    fst (run (generate_features jieba_cut float32 text m)) = Ok features
    /\ features
       = map float32
           (firstn (expected_dim m) (tfidf_vector ++ heuristic_values text))
    /\ ((List.length tfidf_vector + 6 <= expected_dim m)%nat ->
        features = map float32 (tfidf_vector ++ heuristic_values text))
    /\ ((expected_dim m <= List.length tfidf_vector)%nat ->
        features = map float32 (firstn (expected_dim m) tfidf_vector)).
Proof.
  intros H. eexists. rewrite (generate_features_ok _ _ _ _ _ H).
  split; [reflexivity|]. split; [reflexivity|]. split; intros Hlen.
  - rewrite firstn_all2; [reflexivity|].
    rewrite length_app, heuristic_values_length. exact Hlen.
  - rewrite firstn_app.
    replace (expected_dim m - List.length tfidf_vector)%nat with 0%nat by lia.
    cbn [firstn]. now rewrite app_nil_r.
Qed.

Lemma assembled_vector_content_witness :
  exists features,
    fst (run (generate_features Samples.cut_chars Samples.exact
                (py "官方：紧急！") Samples.small_models)) = Ok features
    /\ features = [0.0; 0.6; 0.8; 0.0; 0.0; 6; 1.0; 1; 1.0].
Proof.
  destruct (assembled_vector_content Samples.cut_chars Samples.exact
              (py "官方：紧急！") Samples.small_models [0.0; 0.6; 0.8] eq_refl)
    as (features & Hrun & _ & Hshort & _).
  exists features. split; [exact Hrun|].
  rewrite Hshort; [reflexivity|simpl; lia].
Defined.

(** X8: [load_models] yields models only when both loads succeed, and then
    with a dimension of 204; with such models the assembled vector has the
    204 entries exactly when the vectorizer's row has at least 198. *)
Theorem loaded_models_dimension
  (load_tfidf : result (pystr -> result (list Q)))
  (load_classifier : result classifier) :
  (load_models load_tfidf load_classifier = None
   <-> (exists e, load_tfidf = Raise e) \/ (exists e, load_classifier = Raise e))
  /\ (forall m,
        load_models load_tfidf load_classifier = Some m ->
        expected_dim m = 204%nat
        /\ forall jieba_cut float32 text tfidf_vector,
             tfidf m (preprocess_text jieba_cut text) = Ok tfidf_vector ->
             exists features,
               fst (run (generate_features jieba_cut float32 text m))
               = Ok features
               /\ (List.length features = 204%nat
                   <-> (198 <= List.length tfidf_vector)%nat)).
Proof.
  split.
  - unfold load_models.
    destruct load_tfidf as [t|e1], load_classifier as [c|e2]; split;
      try discriminate; eauto;
      intros [[e H]|[e H]]; discriminate H.
  - intros m Hm. unfold load_models in Hm.
    destruct load_tfidf as [t|e1]; [|discriminate Hm].
    destruct load_classifier as [c|e2]; [|discriminate Hm].
    injection Hm as <-. split; [reflexivity|].
    intros jieba_cut float32 text row Hrow.
    eexists. rewrite (generate_features_ok _ _ _ _ _ Hrow).
    split; [reflexivity|].
    rewrite length_map, length_firstn, length_app, heuristic_values_length.
    cbn [expected_dim]. lia.
Qed.

Lemma loaded_models_dimension_witness :
  expected_dim Samples.small_models = 204%nat
  /\ exists features,
       fst (run (generate_features Samples.cut_chars Samples.exact
                   (py "新闻") Samples.small_models)) = Ok features
       /\ (List.length features = 204%nat <-> (198 <= 3)%nat).
Proof.
  destruct (proj2 (loaded_models_dimension
                     (Ok (tfidf Samples.small_models))
                     (Ok Samples.even_classifier))
              Samples.small_models eq_refl) as [Hdim Hlen].
  split; [exact Hdim|].
  exact (Hlen Samples.cut_chars Samples.exact (py "新闻") [0.0; 0.6; 0.8] eq_refl).
Defined.

(* ================================================================== *)
(** ** Further properties: the confidence computation *)

(** X9: [calculate_confidence] raises exactly when it is not given two
    probabilities, and what it raises is the [ValueError] of the tuple
    unpacking; the text plays no part in that. *)
Theorem calculate_confidence_errors (probabilities : list Q) (text : pystr) :
  ((exists e, calculate_confidence probabilities text = Raise e)
   <-> List.length probabilities <> 2%nat)
  /\ (forall e, calculate_confidence probabilities text = Raise e ->
                e = ValueError).
Proof.
  split.
  - split.
    + intros [e H]. now apply calculate_confidence_raises in H.
    + intros H. exists ValueError.
      destruct probabilities as [|a [|b [|c l]]]; try reflexivity.
      now contradiction H.
  - intros e H. now apply calculate_confidence_raises in H.
Qed.

(** X10: the calibration keeps the order of real probabilities: for one
    text, a larger input never gives a smaller output. *)
Theorem calculate_confidence_order (text : pystr) (real1 real2 fake1 fake2 : Q) :
  real1 <= real2 ->
  exists out1 out2,
    calculate_confidence [real1; fake1] text = Ok (out1, fake1)
    /\ calculate_confidence [real2; fake2] text = Ok (out2, fake2)
    /\ out1 <= out2.
Proof.
  intros H. unfold calculate_confidence.
  destruct (any_in authority_markers text); eexists _, _;
    (split; [reflexivity|split; [reflexivity|]]); [|exact H].
  destruct (py_min_cases (real1 * 1.7) 0.97) as [[H1 ->]|[H1 ->]],
           (py_min_cases (real2 * 1.7) 0.97) as [[H2 ->]|[H2 ->]]; lra.
Qed.

Lemma calculate_confidence_order_witness :
  exists out1 out2,
    calculate_confidence [0.3; 0.7] (py "人民日报") = Ok (out1, 0.7)
    /\ calculate_confidence [0.9; 0.1] (py "人民日报") = Ok (out2, 0.1)
    /\ out1 <= out2.
Proof.
  apply (calculate_confidence_order (py "人民日报") 0.3 0.9 0.7 0.1).
  vm_compute. discriminate.
Defined.

(* ================================================================== *)
(** ** Further properties: the button handler *)

Section Runs.

Variable jieba_cut : pystr -> list pystr.
Variable float32 : Q -> Q.

Lemma strip_nil_iff text : strip text = [] <-> forallb is_space text = true.
Proof.
  split.
  - intros H. unfold strip in H. apply rstrip_nil in H.
    induction text as [|c text IH]; [reflexivity|].
    cbn [forallb]. cbn [lstrip] in H.
    destruct (is_space c) eqn:Ec.
    + cbn [andb]. apply IH. exact H.
    + inversion H as [|? ? Hc _]. congruence.
  - intros H. unfold strip.
    assert (Hl : lstrip text = []).
    { induction text as [|c text IH]; [reflexivity|].
      cbn [forallb] in H. apply andb_prop in H as [Hc Ht].
      cbn [lstrip]. rewrite Hc. now apply IH. }
    now rewrite Hl.
Qed.

(** The assembler always hands over a vector, after two stages. *)
Lemma generate_features_total text m :
  exists features,
    run (generate_features jieba_cut float32 text m)
    = (Ok features, [Normalizer; Vectorizer]).
Proof.
  destruct (generate_features_run jieba_cut float32 text m) as (adv & _ & Hrun).
  rewrite Hrun. destruct (tfidf m (preprocess_text jieba_cut text)); eauto.
Qed.

(** A run past the gate, with its log. *)
Lemma analyse_run text m features :
  any_in absurd_phrases text = false ->
  fst (run (generate_features jieba_cut float32 text m)) = Ok features ->
  run (analyse jieba_cut float32 text m)
  = match predict (model m) features with
    | Raise e => (Raise e, [Normalizer; Vectorizer; Classifier])
    | Ok prediction =>
        match predict_proba (model m) features with
        | Raise e => (Raise e, [Normalizer; Vectorizer; Classifier])
        | Ok probabilities =>
            match calculate_confidence probabilities text with
            | Raise e => (Raise e, all_stages)
            | Ok p =>
                (match st_progress (shown_share prediction p) with
                 | Raise e => Raise e
                 | Ok confidence => Ok (verdict_of prediction confidence)
                 end, all_stages)
            end
        end
    end.
Proof.
  intros Hgate Hfeat.
  destruct (generate_features_total text m) as (v & Hrun).
  rewrite Hrun in Hfeat. cbn [fst] in Hfeat. injection Hfeat as ->.
  unfold analyse, absurd_content_detector.
  rewrite (detector_loop_none _ _ Hgate).
  revert Hrun. unfold_pipeline. intros ->.
  destruct (predict (model m) features) as [prediction|e]; [|reflexivity].
  destruct (predict_proba (model m) features) as [ps|e]; [|reflexivity].
  destruct (calculate_confidence ps text) as [p|e]; [|reflexivity].
  unfold shown_share, verdict_of.
  destruct (normalise p) as [real_prob fake_prob]. cbn [fst snd].
  destruct (prediction =? 1)%Z;
    match goal with |- context [st_progress ?v] =>
      destruct (st_progress v) end; reflexivity.
Qed.

Lemma gate_run text m :
  any_in absurd_phrases text = true ->
  exists v, run (analyse jieba_cut float32 text m) = (Ok v, [])
            /\ confidence_of v = 1.0.
Proof.
  intros H. destruct (detector_loop_first _ _ H) as (_ & p & _ & _ & _ & _ & Hloop).
  unfold analyse, absurd_content_detector. rewrite Hloop.
  eexists. split; reflexivity.
Qed.

End Runs.

(** X12: the handler answers with the warning for an empty input exactly
    when every character of the text is whitespace (the empty text
    included); no stage is entered then and the models are not used. *)
Theorem blank_input_is_refused
  (jieba_cut : pystr -> list pystr) (float32 : Q -> Q)
  (text : pystr) (m : models) :
  (fst (main_application jieba_cut float32 text m) = EmptyInput
   <-> forallb is_space text = true)
  /\ (forallb is_space text = true ->
      main_application jieba_cut float32 text m = (EmptyInput, [])).
Proof.
  rewrite <- strip_nil_iff. unfold main_application.
  destruct (strip text) as [|c s] eqn:E.
  - split; [split; reflexivity|reflexivity].
  - split; [|discriminate].
    destruct (run (analyse jieba_cut float32 text m)) as [[v|e] log];
      split; discriminate.
Qed.

Lemma blank_input_is_refused_witness :
  main_application Samples.cut_chars Samples.exact (py "  　 ")
    Samples.broken_models = (EmptyInput, []).
Proof.
  apply (proj2 (blank_input_is_refused Samples.cut_chars Samples.exact
                  (py "  　 ") Samples.broken_models)).
  vm_compute. reflexivity.
Defined.

(** X13: a failure of the classifier is not masked: for a text that is not
    blank and that the gate lets pass, an exception raised by [predict], or
    by [predict_proba] after [predict] answered, ends the run as a failed
    analysis carrying that exception, after the normalizer, the vectorizer
    and the classifier stage and before the calibrator; a probability row
    that is not a pair ends it with a [ValueError] in the calibrator. *)
Theorem classifier_failure_surfaces
  (jieba_cut : pystr -> list pystr) (float32 : Q -> Q)
  (text : pystr) (m : models) (features : list Q) :
  strip text <> [] ->
  any_in absurd_phrases text = false ->
  fst (run (generate_features jieba_cut float32 text m)) = Ok features ->
  (forall e,
     predict (model m) features = Raise e ->
     main_application jieba_cut float32 text m
     = (AnalysisFailed e, [Normalizer; Vectorizer; Classifier]))
  /\ (forall prediction e,
        predict (model m) features = Ok prediction ->
        predict_proba (model m) features = Raise e ->
        main_application jieba_cut float32 text m
        = (AnalysisFailed e, [Normalizer; Vectorizer; Classifier]))
  /\ (forall prediction probabilities,
        predict (model m) features = Ok prediction ->
        predict_proba (model m) features = Ok probabilities ->
        List.length probabilities <> 2%nat ->
        main_application jieba_cut float32 text m
        = (AnalysisFailed ValueError, all_stages)).
Proof.
  intros Hne Hgate Hfeat. unfold main_application.
  destruct (strip text) as [|c s]; [congruence|].
  rewrite (analyse_run _ _ _ _ _ Hgate Hfeat).
  split; [|split].
  - intros e ->. reflexivity.
  - intros prediction e -> ->. reflexivity.
  - intros prediction ps -> -> Hlen.
    destruct (calculate_confidence ps text) as [p|e] eqn:Hcc.
    + destruct ps as [|a [|b [|d l]]]; try discriminate Hcc.
      now contradiction Hlen.
    + now apply calculate_confidence_raises in Hcc as [-> _].
Qed.

Lemma classifier_failure_surfaces_witness :
  main_application Samples.cut_chars Samples.exact (py "今日新闻")
    Samples.unfit_models
  = (AnalysisFailed ClassifierError, [Normalizer; Vectorizer; Classifier]).
Proof.
  refine (proj1 (classifier_failure_surfaces Samples.cut_chars Samples.exact
                   (py "今日新闻") Samples.unfit_models _ _ _ _)
            ClassifierError _).
  - vm_compute. discriminate.
  - vm_compute. reflexivity.
  - reflexivity.
  - reflexivity.
Defined.

(** X14: for a text that is not blank and that the gate lets pass, with a
    classifier that answers with a label and a pair of probabilities, the
    run goes through the four stages in order and its end is decided by the
    label and by the share of the labelled class alone (the fake share for
    the label 1, the real share for any other label), whichever of the two
    is the higher: when the progress bar accepts that share the verdict is
    Fake exactly for the label 1, Real otherwise, with the share as
    confidence, and this is so for every proper pair; when the bar refuses
    it, the run ends as a failed analysis. *)
Theorem model_verdict_follows_label
  (jieba_cut : pystr -> list pystr) (float32 : Q -> Q)
  (text : pystr) (m : models) (features : list Q)
  (prediction : Z) (real fake : Q) :
  strip text <> [] ->
  any_in absurd_phrases text = false ->
  fst (run (generate_features jieba_cut float32 text m)) = Ok features ->
  predict (model m) features = Ok prediction ->
  predict_proba (model m) features = Ok [real; fake] ->
  exists p,
    calculate_confidence [real; fake] text = Ok p
    /\ main_application jieba_cut float32 text m
       = (match st_progress (shown_share prediction p) with
          | Ok confidence =>
              Verdict (if (prediction =? 1)%Z then Fake confidence None
                       else Real confidence)
          | Raise e => AnalysisFailed e
          end, all_stages)
    /\ (proper_pair real fake ->
        exists confidence,
          st_progress (shown_share prediction p) = Ok confidence
          /\ 0 <= confidence <= 1)
    /\ (forall e, st_progress (shown_share prediction p) = Raise e ->
                  e = StreamlitAPIException /\ ~ proper_pair real fake).
Proof.
  intros Hne Hgate Hfeat Hp Hpp. unfold main_application.
  destruct (strip text) as [|c s]; [congruence|].
  rewrite (analyse_run _ _ _ _ _ Hgate Hfeat), Hp, Hpp.
  destruct (calculate_confidence [real; fake] text) as [p|e] eqn:Hcc.
  - exists p. split; [reflexivity|]. split; [|split].
    + unfold verdict_of.
      destruct (st_progress (shown_share prediction p)); reflexivity.
    + intros Hproper.
      destruct (proper_pair_shown real fake text prediction Hproper)
        as (p' & c' & Hcc' & Hshow & Hbounds).
      rewrite Hcc in Hcc'. injection Hcc' as <-. now exists c'.
    + intros e He. split; [now apply st_progress_refuses in He|].
      intros Hproper.
      destruct (proper_pair_shown real fake text prediction Hproper)
        as (p' & c' & Hcc' & Hshow & _).
      rewrite Hcc in Hcc'. injection Hcc' as <-. congruence.
  - apply calculate_confidence_raises in Hcc as [_ Hlen].
    now contradiction Hlen.
Qed.

(** A label of 0 with probabilities (0.2, 0.8): the verdict is Real with a
    confidence of 0.2. *)
Lemma model_verdict_follows_label_witness :
  main_application Samples.cut_chars Samples.exact (py "今日新闻")
    Samples.skewed_models
  = (Verdict (Real (0.2 / (0.2 + 0.8))), all_stages).
Proof.
  destruct (model_verdict_follows_label Samples.cut_chars Samples.exact
              (py "今日新闻") Samples.skewed_models
              (map Samples.exact
                 (firstn 204 (repeat 0.0 198
                              ++ heuristic_values (py "今日新闻"))))
              0%Z 0.2 0.8) as (p & Hcc & Hmain & _).
  - vm_compute. discriminate.
  - vm_compute. reflexivity.
  - reflexivity.
  - reflexivity.
  - reflexivity.
  - rewrite Hmain. injection Hcc as <-. reflexivity.
Defined.

Section Bounds.

Lemma confidence_of_verdict_of prediction confidence :
  confidence_of (verdict_of prediction confidence) = confidence.
Proof. unfold verdict_of. destruct (prediction =? 1)%Z; reflexivity. Qed.

End Bounds.

(** X15: with a classifier whose probability rows are pairs of
    non-negative values that sum to 1, every verdict, from the gate or from
    the classifier, reports a confidence between 0 and 1. *)
Theorem verdict_confidence_in_unit_interval
  (jieba_cut : pystr -> list pystr) (float32 : Q -> Q)
  (text : pystr) (m : models) :
  (forall features probabilities,
     predict_proba (model m) features = Ok probabilities ->
     exists real fake,
       probabilities = [real; fake]
       /\ 0 <= real /\ 0 <= fake /\ real + fake == 1) ->
  match fst (main_application jieba_cut float32 text m) with
  | Verdict v => 0 <= confidence_of v <= 1
  | _ => True
  end.
Proof.
  intros Hclf. unfold main_application.
  destruct (strip text) as [|c s]; [exact I|].
  destruct (any_in absurd_phrases text) eqn:Hgate.
  - destruct (gate_run jieba_cut float32 text m Hgate) as (v & -> & Hv).
    cbn [fst]. rewrite Hv. split; [discriminate|].
    unfold Qle. cbn. lia.
  - destruct (generate_features_total jieba_cut float32 text m) as (features & Hrun).
    assert (Hfeat : fst (run (generate_features jieba_cut float32 text m))
                    = Ok features) by now rewrite Hrun.
    rewrite (analyse_run _ _ _ _ _ Hgate Hfeat).
    destruct (predict (model m) features) as [prediction|e]; [|exact I].
    destruct (predict_proba (model m) features) as [ps|e] eqn:Hpp; [|exact I].
    destruct (Hclf _ _ Hpp) as (real & fake & -> & Hr & Hf & Hsum).
    assert (Hproper : proper_pair real fake) by (repeat split; lra).
    destruct (proper_pair_shown real fake text prediction Hproper)
      as (p & confidence & -> & -> & Hbounds).
    cbn [fst]. now rewrite confidence_of_verdict_of.
Qed.

Lemma verdict_confidence_in_unit_interval_witness :
  match fst (main_application Samples.cut_chars Samples.exact
               (py "新华社今日新闻") Samples.skewed_models) with
  | Verdict v => 0 <= confidence_of v <= 1
  | _ => True
  end.
Proof.
  apply (verdict_confidence_in_unit_interval Samples.cut_chars Samples.exact
           (py "新华社今日新闻") Samples.skewed_models).
  intros features probabilities H. injection H as <-.
  exists 0.2, 0.8. split; [reflexivity|].
  split; [vm_compute; discriminate|].
  split; [vm_compute; discriminate|vm_compute; reflexivity].
Defined.

(** X16: the stages of a run are entered in the order of the source and at
    most once each: the log is empty (exactly for a blank text and for a
    text that the gate matches), or normalizer, vectorizer, classifier, or
    these three and the calibrator; the vectorizer is never consulted
    without the classifier being called next. *)
Theorem stages_run_in_order
  (jieba_cut : pystr -> list pystr) (float32 : Q -> Q)
  (text : pystr) (m : models) :
  (snd (main_application jieba_cut float32 text m) = []
   \/ snd (main_application jieba_cut float32 text m)
      = [Normalizer; Vectorizer; Classifier]
   \/ snd (main_application jieba_cut float32 text m) = all_stages)
  /\ (snd (main_application jieba_cut float32 text m) = []
      <-> strip text = [] \/ any_in absurd_phrases text = true).
Proof.
  unfold main_application.
  destruct (strip text) as [|c s] eqn:Hs.
  - split; [now left|]. split; [now left|reflexivity].
  - destruct (any_in absurd_phrases text) eqn:Hgate.
    + destruct (gate_run jieba_cut float32 text m Hgate) as (v & -> & _).
      split; [now left|]. split; [now right|reflexivity].
    + destruct (generate_features_total jieba_cut float32 text m)
        as (features & Hrun).
      assert (Hfeat : fst (run (generate_features jieba_cut float32 text m))
                      = Ok features) by now rewrite Hrun.
      rewrite (analyse_run _ _ _ _ _ Hgate Hfeat).
      destruct (predict (model m) features) as [prediction|e];
        [|split; [right; now left|split; [discriminate|intros [H|H]; discriminate H]]].
      destruct (predict_proba (model m) features) as [ps|e];
        [|split; [right; now left|split; [discriminate|intros [H|H]; discriminate H]]].
      destruct (calculate_confidence ps text) as [p|e];
        [destruct (st_progress (shown_share prediction p))|];
        (split; [right; now right|split; [discriminate|intros [H|H]; discriminate H]]).
Qed.

(* ================================================================== *)
(** ** Further properties: the session and the feedback record *)

Section Stored.

Variable jieba_cut : pystr -> list pystr.
Variable float32 : Q -> Q.

Lemma gate_run_reason text m :
  any_in absurd_phrases text = true ->
  exists reason,
    run (analyse jieba_cut float32 text m)
    = (Ok (Fake 1.0 (Some reason)), [])
    /\ forall s,
         run (analyse_and_store jieba_cut float32 text m s)
         = (Ok (Fake 1.0 (Some reason), s), []).
Proof.
  intros H.
  destruct (detector_loop_first _ _ H) as (_ & p & _ & _ & _ & _ & Hloop).
  unfold analyse_and_store, analyse, absurd_content_detector.
  rewrite Hloop. eexists. split; [|intros s]; reflexivity.
Qed.

(** A run with the session past the gate, with its log and the session it
    leaves: the result is stored once the progress bar has accepted the
    share. *)
Lemma analyse_and_store_run text m s features :
  any_in absurd_phrases text = false ->
  fst (run (generate_features jieba_cut float32 text m)) = Ok features ->
  run (analyse_and_store jieba_cut float32 text m s)
  = match predict (model m) features with
    | Raise e => (Raise e, [Normalizer; Vectorizer; Classifier])
    | Ok prediction =>
        match predict_proba (model m) features with
        | Raise e => (Raise e, [Normalizer; Vectorizer; Classifier])
        | Ok probabilities =>
            match calculate_confidence probabilities text with
            | Raise e => (Raise e, all_stages)
            | Ok p =>
                (match st_progress (shown_share prediction p) with
                 | Raise e => Raise e
                 | Ok confidence =>
                     Ok (verdict_of prediction confidence,
                         {| show_feedback := show_feedback s;
                            last_result :=
                              Some {| result_text := text;
                                      result_prediction := prediction;
                                      result_confidence := confidence |} |})
                 end, all_stages)
            end
        end
    end.
Proof.
  intros Hgate Hfeat.
  destruct (generate_features_total jieba_cut float32 text m) as (v & Hrun).
  rewrite Hrun in Hfeat. cbn [fst] in Hfeat. injection Hfeat as ->.
  unfold analyse_and_store, absurd_content_detector.
  rewrite (detector_loop_none _ _ Hgate).
  revert Hrun. unfold_pipeline. intros ->.
  destruct (predict (model m) features) as [prediction|e]; [|reflexivity].
  destruct (predict_proba (model m) features) as [ps|e]; [|reflexivity].
  destruct (calculate_confidence ps text) as [p|e]; [|reflexivity].
  unfold shown_share, verdict_of.
  destruct (normalise p) as [real_prob fake_prob]. cbn [fst snd].
  destruct (prediction =? 1)%Z;
    match goal with |- context [st_progress ?v] =>
      destruct (st_progress v) end; reflexivity.
Qed.

End Stored.

Lemma str_eqb_eq a b : str_eqb a b = true <-> a = b.
Proof.
  revert b. induction a as [|x a IH]; intros [|y b]; cbn [str_eqb];
    try (split; [discriminate|intros H; discriminate H]); [tauto|].
  rewrite andb_true_iff, N.eqb_eq, IH. split.
  - now intros [-> ->].
  - intros H. injection H as -> ->. tauto.
Qed.

(** X17: the detection button with the session shows what
    [main_application] shows and, of the session, touches nothing but
    [last_result]; a verdict of the classifier stores the analysed text
    with the shown confidence, while a verdict of the gate, a blank input
    and a failed analysis (a share that the progress bar refuses included)
    leave [last_result] as it was. *)
Theorem detection_stores_model_verdicts_only
  (jieba_cut : pystr -> list pystr) (float32 : Q -> Q)
  (text : pystr) (m : models) (s : session_state) :
  let shown := main_application jieba_cut float32 text m in
  let s' := snd (detect_button jieba_cut float32 text m s) in
  fst (detect_button jieba_cut float32 text m s) = shown
  /\ show_feedback s' = show_feedback s
  /\ match fst shown with
     | Verdict (Fake c None) | Verdict (Real c) =>
         exists prediction,
           last_result s' = Some {| result_text := text;
                                    result_prediction := prediction;
                                    result_confidence := c |}
     | _ => last_result s' = last_result s
     end.
Proof.
  cbv zeta. unfold detect_button, main_application.
  destruct (strip text) as [|c0 s0]; [repeat split|].
  destruct (any_in absurd_phrases text) eqn:Hgate.
  - destruct (gate_run_reason jieba_cut float32 text m Hgate)
      as (reason & -> & Hstore).
    rewrite Hstore. repeat split.
  - destruct (generate_features_total jieba_cut float32 text m)
      as (features & Hrun).
    assert (Hfeat : fst (run (generate_features jieba_cut float32 text m))
                    = Ok features) by now rewrite Hrun.
    rewrite (analyse_run _ _ _ _ _ Hgate Hfeat),
      (analyse_and_store_run _ _ _ _ s _ Hgate Hfeat).
    destruct (predict (model m) features) as [prediction|e]; [|repeat split].
    destruct (predict_proba (model m) features) as [ps|e]; [|repeat split].
    destruct (calculate_confidence ps text) as [p|e]; [|repeat split].
    destruct (st_progress (shown_share prediction p)) as [confidence|e];
      [|repeat split].
    unfold verdict_of.
    destruct (prediction =? 1)%Z; repeat split; cbn [fst snd last_result];
      eexists; reflexivity.
Qed.

(** X18: the feedback record carries at most the first 500 characters of
    the stored text (the whole of it when it is no longer, the empty text
    when nothing is stored), and reports the label [real] exactly for the
    choice 真实 and [fake] for any other. *)
Theorem feedback_record_content
  (now actual_label comment_text : pystr) (s : session_state) :
  let data := feedback_data now actual_label comment_text s in
  let stored := match last_result s with
                | Some r => result_text r
                | None => []
                end in
  (List.length (feedback_text data) <= 500)%nat
  /\ (exists rest, stored = feedback_text data ++ rest)
  /\ ((List.length stored <= 500)%nat -> feedback_text data = stored)
  /\ (reported_label data = py "real" <-> actual_label = py "真实")
  /\ (reported_label data = py "fake" <-> actual_label <> py "真实").
Proof.
  cbv zeta. unfold feedback_data. cbn [feedback_text reported_label].
  change (py "") with (@nil codepoint).
  set (stored := match last_result s with
                 | Some r => result_text r
                 | None => []
                 end).
  split; [apply firstn_le_length|].
  split; [exists (skipn 500 stored); symmetry; apply firstn_skipn|].
  split; [apply firstn_all2|].
  destruct (str_eqb actual_label (py "真实")) eqn:E.
  - apply str_eqb_eq in E. split; split; intros H.
    + exact E.
    + reflexivity.
    + vm_compute in H. discriminate H.
    + contradiction.
  - assert (Hne : actual_label <> py "真实").
    { intros H. apply str_eqb_eq in H. congruence. }
    split; split; intros H.
    + vm_compute in H. discriminate H.
    + contradiction.
    + exact Hne.
    + reflexivity.
Qed.

Lemma feedback_record_content_witness :
  feedback_text (feedback_data (py "2024-01-01T00:00:00") (py "虚假")
                   (py "标签有误") Samples.old_session) = py "旧闻".
Proof.
  apply (proj1 (proj2 (proj2 (feedback_record_content
                                (py "2024-01-01T00:00:00") (py "虚假")
                                (py "标签有误") Samples.old_session)))).
  simpl. lia.
Defined.

(** X19: feedback given after a detection describes that detection only
    when its verdict came from the classifier: the record then carries the
    first 500 characters of the analysed text; after a verdict of the gate,
    a blank input or a failed analysis the record is the one that would
    have been written before the detection. *)
Theorem feedback_after_detection
  (jieba_cut : pystr -> list pystr) (float32 : Q -> Q)
  (text : pystr) (m : models) (s : session_state)
  (now actual_label comment_text : pystr) :
  let shown := fst (main_application jieba_cut float32 text m) in
  let s' := snd (detect_button jieba_cut float32 text m s) in
  (from_model shown = true ->
   feedback_text (feedback_data now actual_label comment_text s')
   = firstn 500 text)
  /\ (from_model shown = false ->
      feedback_data now actual_label comment_text s'
      = feedback_data now actual_label comment_text s)
  /\ (any_in absurd_phrases text = true -> from_model shown = false).
Proof.
  cbv zeta. unfold detect_button, main_application.
  destruct (strip text) as [|c0 s0];
    [split; [discriminate|split; reflexivity]|].
  destruct (any_in absurd_phrases text) eqn:Hgate.
  - destruct (gate_run_reason jieba_cut float32 text m Hgate)
      as (reason & -> & Hstore).
    rewrite Hstore. split; [discriminate|split; reflexivity].
  - destruct (generate_features_total jieba_cut float32 text m)
      as (features & Hrun).
    assert (Hfeat : fst (run (generate_features jieba_cut float32 text m))
                    = Ok features) by now rewrite Hrun.
    rewrite (analyse_run _ _ _ _ _ Hgate Hfeat),
      (analyse_and_store_run _ _ _ _ s _ Hgate Hfeat).
    destruct (predict (model m) features) as [prediction|e];
      [|split; [discriminate|split; [reflexivity|discriminate]]].
    destruct (predict_proba (model m) features) as [ps|e];
      [|split; [discriminate|split; [reflexivity|discriminate]]].
    destruct (calculate_confidence ps text) as [p|e];
      [|split; [discriminate|split; [reflexivity|discriminate]]].
    destruct (st_progress (shown_share prediction p)) as [confidence|e];
      [|split; [discriminate|split; [reflexivity|discriminate]]].
    unfold verdict_of.
    destruct (prediction =? 1)%Z;
      (split; [reflexivity|split; discriminate]).
Qed.

(** After a verdict of the gate the record still carries the text analysed
    before, 旧闻. *)
Lemma feedback_after_detection_witness :
  feedback_data (py "2024-01-01T00:00:00") (py "虚假") (py "标签有误")
    (snd (detect_button Samples.cut_chars Samples.exact
            (py "月球爆炸了") Samples.skewed_models Samples.old_session))
  = feedback_data (py "2024-01-01T00:00:00") (py "虚假") (py "标签有误")
      Samples.old_session.
Proof.
  apply (proj1 (proj2 (feedback_after_detection
                         Samples.cut_chars Samples.exact (py "月球爆炸了")
                         Samples.skewed_models Samples.old_session
                         (py "2024-01-01T00:00:00") (py "虚假")
                         (py "标签有误")))).
  vm_compute. reflexivity.
Defined.

(** X20: one opening of the feedback form gives at most one record: a
    record is written only while the form is open and the write succeeds,
    it is then the record of the session, the form is closed and a further
    press writes nothing until the form is opened again; a failed write
    leaves the session as it was; [last_result] is never changed. *)
Theorem feedback_is_submitted_once
  (now actual_label comment_text : pystr)
  (append : feedback_record -> result unit) (s : session_state) :
  let s1 := fst (submit_button now actual_label comment_text append s) in
  let written := snd (submit_button now actual_label comment_text append s) in
  (forall data,
     written = Some data ->
     show_feedback s = true
     /\ data = feedback_data now actual_label comment_text s
     /\ show_feedback s1 = false
     /\ forall now' label' comment' append',
          submit_button now' label' comment' append' s1 = (s1, None))
  /\ (written = None -> s1 = s)
  /\ last_result s1 = last_result s
  /\ (forall data,
        append (feedback_data now actual_label comment_text (report_button s))
        = Ok tt ->
        data = feedback_data now actual_label comment_text (report_button s) ->
        snd (submit_button now actual_label comment_text append
               (report_button s))
        = Some data).
Proof.
  cbv zeta. unfold submit_button, report_button.
  cbn [show_feedback].
  split; [|split; [|split]].
  - destruct (show_feedback s) eqn:Hs; [|discriminate].
    destruct (append (feedback_data now actual_label comment_text s)) as [u|e];
      [|discriminate].
    cbn [fst snd]. intros data [= <-]. repeat split.
  - destruct (show_feedback s); [|reflexivity].
    destruct (append (feedback_data now actual_label comment_text s)) as [u|e];
      [discriminate|reflexivity].
  - destruct (show_feedback s); [|reflexivity].
    destruct (append (feedback_data now actual_label comment_text s));
      reflexivity.
  - intros data Happ ->. now rewrite Happ.
Qed.

Lemma feedback_is_submitted_once_witness :
  snd (submit_button (py "2024-01-01T00:00:00") (py "真实") (py "")
         (fun _ => Ok tt) (report_button new_session))
  = Some (feedback_data (py "2024-01-01T00:00:00") (py "真实") (py "")
            (report_button new_session)).
Proof.
  apply (proj2 (proj2 (proj2 (feedback_is_submitted_once
                                (py "2024-01-01T00:00:00") (py "真实") (py "")
                                (fun _ => Ok tt) new_session)))).
  - reflexivity.
  - reflexivity.
Defined.

(* ================================================================== *)
(** ** Further properties: the heuristic features as a dictionary *)

(** X21: whatever the text, the heuristic features hold exactly the six
    keys [length], [sentences], [reliable], [is_absurd], [urgent] and
    [exaggeration]: each of them has a value and any other key raises
    [KeyError]. *)
Theorem extract_text_features_keys (text : pystr) (key : string) :
  ((exists v, getitem (extract_text_features text) key = Ok v)
   <-> In key ["length"; "sentences"; "reliable"; "is_absurd"; "urgent";
               "exaggeration"]%string)
  /\ ((forall v, getitem (extract_text_features text) key <> Ok v)
      -> getitem (extract_text_features text) key = Raise KeyError).
Proof.
  cbn [extract_text_features getitem In].
  repeat match goal with
  | |- context [String.eqb ?k key] =>
      destruct (String.eqb_spec k key) as [<-|?]
  end;
  (split; [split; [intros _; tauto|intros _; eexists; reflexivity]
          |intros H; try reflexivity; exfalso; eapply H; reflexivity])
  || (split; [split; [intros [v H]; discriminate H|intuition congruence]
             |reflexivity]).
Qed.

(** X22: the sentence count of a text put together from two parts is the
    sum of the parts' counts minus one, and a sentence count is at least 1
    and at most the number of characters plus one. *)
Theorem sentences_of_concatenation (a b : pystr) :
  exists na nb nab : Z,
    getitem (extract_text_features a) "sentences" = Ok (PyInt na)
    /\ getitem (extract_text_features b) "sentences" = Ok (PyInt nb)
    /\ getitem (extract_text_features (a ++ b)) "sentences" = Ok (PyInt nab)
    /\ (nab = na + nb - 1)%Z
    /\ (1 <= na <= len a + 1)%Z.
Proof.
  eexists _, _, _.
  split; [reflexivity|]. split; [reflexivity|]. split; [reflexivity|].
  unfold count, len, FULL_STOP. rewrite !count_from_char.
  rewrite filter_app, length_app.
  pose proof (filter_length_le (N.eqb 12290) a).
  unfold pystr, codepoint in *. lia.
Qed.
